(** * The NBA data-lake provisioning script, [basketball.py]

    A shallow embedding of the script: the Python values it handles, the
    exceptions it catches or lets through, the calls it makes to the object
    store, the data catalog, the query service and the sports-data API, and
    the six steps with the top-level sequence that runs them.  The services
    are external: they are an oracle ([World]) that answers every call, after
    the calls made so far, with a result or an exception. *)

From Stdlib Require Import ZArith NArith List String Ascii Bool Lia DecimalString Sorted.
Import ListNotations.
Open Scope string_scope.
Set Warnings "-register-all".

(** ** Characters and lines *)

(** The line feed, the double quote and the backslash, by their codes. *)
Definition LF : ascii := "010"%char.
Definition DQUOTE : ascii := "034"%char.
Definition BACKSLASH : ascii := "092"%char.

(** Python's ["\n"]. *)
Definition newline : string := String LF EmptyString.

Definition is_LF (c : ascii) : bool := Ascii.eqb c LF.

(** [has_newline s]: a line feed occurs in [s]. *)
Fixpoint has_newline (s : string) : bool :=
  match s with
  | EmptyString => false
  | String c r => is_LF c || has_newline r
  end.

(** Python's [s.split("\n")]: the pieces of [s] between line feeds. *)
Fixpoint split_lines (s : string) : list string :=
  match s with
  | EmptyString => [EmptyString]
  | String c r =>
      if is_LF c then EmptyString :: split_lines r
      else match split_lines r with
           | [] => [String c EmptyString]
           | h :: t => String c h :: t
           end
  end.

(** The last character of a string, if any. *)
Fixpoint last_char (s : string) : option ascii :=
  match s with
  | EmptyString => None
  | String c EmptyString => Some c
  | String _ r => last_char r
  end.

(** ** Exceptions

    The script distinguishes three families: botocore's [ClientError] (with
    the code of [e.response["Error"]["Code"]]), requests' [RequestException]
    and its subclasses, and everything else.  [text] is [str(e)]. *)
Inductive exn : Type :=
| ClientError (Code : string) (text : string)
| RequestException (cls : string) (text : string)
| TypeError (text : string)
| OtherException (cls : string) (text : string).

Definition is_ClientError (e : exn) : bool :=
  match e with ClientError _ _ => true | _ => false end.

Definition is_RequestException (e : exn) : bool :=
  match e with RequestException _ _ => true | _ => false end.

Definition exn_str (e : exn) : string :=
  match e with
  | ClientError _ t | RequestException _ t | TypeError t | OtherException _ t => t
  end.

(** A computation either returns or raises. *)
Inductive result (A : Type) : Type :=
| Ok (a : A)
| Raise (e : exn).
Arguments Ok {A} a.
Arguments Raise {A} e.

(** ** Python values

    The values [response.json()] can produce, and an opaque object of any
    other class.  The script never computes with floats, it only tests and
    prints them, so a float is kept abstract together with the text
    [json.dumps] writes for it and its truth value. *)
Class FloatModel : Type := {
  float : Type;
  float_repr : float -> string;
  float_nonzero : float -> bool
}.

(** A Python [str]: its code points. *)
Definition pystr : Type := list N.

(** The [str] of an ASCII literal. *)
Definition u (s : string) : pystr := map N_of_ascii (list_ascii_of_string s).

Section Values.
Context {FM : FloatModel}.

Inductive pyval : Type :=
| PyNone
| PyBool (b : bool)
| PyInt (z : Z)
| PyFloat (f : float)
| PyStr (s : pystr)
| PyList (l : list pyval)
| PyDict (items : list (pystr * pyval))
| PyObject (cls : string).

(** [bool(v)], as [if nba_data:] tests it.  An object of another class is
    true unless it says otherwise. *)
Definition truthy (v : pyval) : bool :=
  match v with
  | PyNone => false
  | PyBool b => b
  | PyInt z => negb (z =? 0)%Z
  | PyFloat f => float_nonzero f
  | PyStr s => negb (Nat.eqb (List.length s) 0)
  | PyList l => negb (Nat.eqb (List.length l) 0)
  | PyDict d => negb (Nat.eqb (List.length d) 0)
  | PyObject _ => true
  end.

(** [type(v).__name__], for messages. *)
Definition type_name (v : pyval) : string :=
  match v with
  | PyNone => "NoneType"
  | PyBool _ => "bool"
  | PyInt _ => "int"
  | PyFloat _ => "float"
  | PyStr _ => "str"
  | PyList _ => "list"
  | PyDict _ => "dict"
  | PyObject c => c
  end.

(** [iter(v)], exhausted: a list gives its elements, a dict its keys, a str
    its characters; nothing else the script can meet is iterable. *)
Definition py_iter (v : pyval) : result (list pyval) :=
  match v with
  | PyList l => Ok l
  | PyDict d => Ok (map (fun kv => PyStr (fst kv)) d)
  | PyStr s => Ok (map (fun c => PyStr [c]) s)
  | _ => Raise (TypeError ("'" ++ type_name v ++ "' object is not iterable"))
  end.

(** ** [json.dumps] with its defaults

    [ensure_ascii=True], separators [", "] and [": "], no indentation. *)

Definition hex_digit (d : N) : ascii :=
  match String.get (N.to_nat d) "0123456789abcdef" with
  | Some c => c
  | None => "0"%char
  end.

(** ['{0:04x}'.format(n)], for [n] below [0x10000]. *)
Definition hex04 (n : N) : string :=
  String (hex_digit (N.land (N.shiftr n 12) 15))
    (String (hex_digit (N.land (N.shiftr n 8) 15))
       (String (hex_digit (N.land (N.shiftr n 4) 15))
          (String (hex_digit (N.land n 15)) EmptyString))).

Definition esc (c : ascii) : string := String BACKSLASH (String c EmptyString).

Definition u_escape (n : N) : string := String BACKSLASH (String "u" (hex04 n)).

(** What [py_encode_basestring_ascii] writes for one code point: the short
    escapes of [ESCAPE_DCT], the printable ASCII characters as they are,
    and [\uXXXX] (a surrogate pair from [0x10000] on) for the rest. *)
Definition escape_char (n : N) : string :=
  if (n =? 92)%N then esc BACKSLASH
  else if (n =? 34)%N then esc DQUOTE
  else if ((32 <=? n) && (n <=? 126))%N then String (ascii_of_N n) EmptyString
  else if (n =? 8)%N then esc "b"
  else if (n =? 12)%N then esc "f"
  else if (n =? 10)%N then esc "n"
  else if (n =? 13)%N then esc "r"
  else if (n =? 9)%N then esc "t"
  else if (n <? 65536)%N then u_escape n
  else
    let n' := (n - 65536)%N in
    let s1 := N.lor 55296 (N.land (N.shiftr n' 10) 1023) in
    let s2 := N.lor 56320 (N.land n' 1023) in
    u_escape s1 ++ u_escape s2.

Definition encode_basestring_ascii (s : pystr) : string :=
  String DQUOTE (String.concat EmptyString (map escape_char s) ++ String DQUOTE EmptyString).

(** [int.__repr__]. *)
Definition int_repr (z : Z) : string := NilZero.string_of_int (Z.to_int z).

Fixpoint json_dumps (v : pyval) : result string :=
  match v with
  | PyNone => Ok "null"
  | PyBool true => Ok "true"
  | PyBool false => Ok "false"
  | PyInt z => Ok (int_repr z)
  | PyFloat f => Ok (float_repr f)
  | PyStr s => Ok (encode_basestring_ascii s)
  | PyList l =>
      match
        (fix elements (l : list pyval) : result (list string) :=
           match l with
           | [] => Ok []
           | x :: r =>
               match json_dumps x with
               | Raise e => Raise e
               | Ok s =>
                   match elements r with
                   | Raise e => Raise e
                   | Ok ss => Ok (s :: ss)
                   end
               end
           end) l
      with
      | Raise e => Raise e
      | Ok ss => Ok ("[" ++ String.concat ", " ss ++ "]")
      end
  | PyDict d =>
      match
        (fix members (d : list (pystr * pyval)) : result (list string) :=
           match d with
           | [] => Ok []
           | (k, x) :: r =>
               match json_dumps x with
               | Raise e => Raise e
               | Ok s =>
                   match members r with
                   | Raise e => Raise e
                   | Ok ss => Ok ((encode_basestring_ascii k ++ ": " ++ s) :: ss)
                   end
               end
           end) d
      with
      | Raise e => Raise e
      | Ok ss => Ok ("{" ++ String.concat ", " ss ++ "}")
      end
  | PyObject c =>
      Raise (TypeError ("Object of type " ++ c ++ " is not JSON serializable"))
  end.

(** [json.dumps(record) for record in data], consumed from left to right:
    the first record that cannot be written raises. *)
Fixpoint dumps_each (l : list pyval) : result (list string) :=
  match l with
  | [] => Ok []
  | x :: r =>
      match json_dumps x with
      | Raise e => Raise e
      | Ok s =>
          match dumps_each r with
          | Raise e => Raise e
          | Ok ss => Ok (s :: ss)
          end
      end
  end.

(** What [json.dumps] is known to write for a float: a text on one line,
    not empty. *)
Definition float_tokens : Prop :=
  forall f : float, has_newline (float_repr f) = false /\ float_repr f <> EmptyString.

(** The members of a dict, written as [key: value], from left to right. *)
Fixpoint dumps_members (d : list (pystr * pyval)) : result (list string) :=
  match d with
  | [] => Ok []
  | (k, x) :: r =>
      match json_dumps x with
      | Raise e => Raise e
      | Ok s =>
          match dumps_members r with
          | Raise e => Raise e
          | Ok ss => Ok ((encode_basestring_ascii k ++ ": " ++ s) :: ss)
          end
      end
  end.

End Values.

(** ** The services and the calls made to them *)

(** The [TableInput] of [glue_client.create_table]. *)
Record Column : Type := { col_Name : string; col_Type : string }.

Record SerdeInfo : Type := { SerializationLibrary : string }.

Record StorageDescriptor : Type := {
  Columns : list Column;
  Location : string;
  InputFormat : string;
  OutputFormat : string;
  sd_SerdeInfo : SerdeInfo
}.

Record TableInput : Type := {
  ti_Name : string;
  ti_StorageDescriptor : StorageDescriptor;
  TableType : string
}.

(** The [DatabaseInput] of [glue_client.create_database]. *)
Record DatabaseInput : Type := { di_Name : string; di_Description : string }.

(** An entry of a [DatabaseList] or a [TableList]: the script reads its
    ["Name"] only. *)
Record Entry : Type := { entry_Name : string }.

(** One call to a service, with its arguments. *)
Inductive call : Type :=
| CreateBucket (Bucket : string)
| HttpGet (url : option string) (headers : list (string * option string))
| PutObject (Bucket Key : string) (Body : string)
| GetDatabases
| CreateDatabase (input : DatabaseInput)
| GetTables (DatabaseName : string)
| CreateTable (DatabaseName : string) (input : TableInput)
| StartQueryExecution (QueryString Database OutputLocation : string).

(** The functions of the script. *)
Inductive fn : Type :=
| Fcreate_s3_bucket
| Ffetch_nba_data
| Fupload_to_s3
| Fcreate_glue_database
| Fcreate_glue_table
| Fconfigure_athena.

Definition is_PutObject (c : call) : bool :=
  match c with PutObject _ _ _ => true | _ => false end.

Section Script.
Context {FM : FloatModel}.

(** What [requests.get] hands back: the status line, and what
    [response.json()] will give, a value or an exception. *)
Record Response : Type := {
  status_code : Z;
  reason : string;
  response_url : string;
  json : result pyval
}.

(** The outside world: the two environment variables, and for each service
    operation its answer, given the calls made before it. *)
Record World : Type := {
  SPORTS_DATA_API_KEY : option string;
  NBA_ENDPOINT_env : option string;
  s3_create_bucket : list call -> string -> result unit;
  http_get : list call -> option string -> list (string * option string) -> result Response;
  s3_put_object : list call -> string -> string -> string -> result unit;
  glue_get_databases : list call -> result (list Entry);
  glue_create_database : list call -> DatabaseInput -> result unit;
  glue_get_tables : list call -> string -> result (list Entry);
  glue_create_table : list call -> string -> TableInput -> result unit;
  athena_start_query_execution : list call -> string -> string -> string -> result unit
}.

(** ** The script's monad: calls made, lines printed, functions entered *)

Record state : Type := {
  calls : list call;
  stdout : list string;
  entered : list fn
}.

Definition init : state := {| calls := []; stdout := []; entered := [] |}.

Definition M (A : Type) : Type := state -> result A * state.

Definition ret {A} (a : A) : M A := fun st => (Ok a, st).

Definition raise {A} (e : exn) : M A := fun st => (Raise e, st).

Definition bind {A B} (m : M A) (k : A -> M B) : M B :=
  fun st =>
    match m st with
    | (Ok a, st') => k a st'
    | (Raise e, st') => (Raise e, st')
    end.

Definition lift {A} (r : result A) : M A := fun st => (r, st).

(** [print(line)]. *)
Definition print (line : string) : M unit :=
  fun st => (Ok tt, {| calls := calls st; stdout := stdout st ++ [line]; entered := entered st |}).

(** Entering a function of the script. *)
Definition enter (f : fn) : M unit :=
  fun st => (Ok tt, {| calls := calls st; stdout := stdout st; entered := entered st ++ [f] |}).

(** A call to a service: it is recorded, and answered from the calls made
    before it. *)
Definition invoke {A} (c : call) (answer : list call -> result A) : M A :=
  fun st => (answer (calls st),
             {| calls := calls st ++ [c]; stdout := stdout st; entered := entered st |}).

(** [try: body  except K as e: handler(e)], where [catches] says whether an
    exception is an instance of [K]. *)
Definition try_except {A} (body : M A) (catches : exn -> bool) (handler : exn -> M A) : M A :=
  fun st =>
    match body st with
    | (Raise e, st') => if catches e then handler e st' else (Raise e, st')
    | returned => returned
    end.

End Script.

Declare Scope script_scope.
Delimit Scope script_scope with script.
Notation "x <- m ;; k" := (bind m (fun x => k))
  (at level 61, m at next level, right associativity) : script_scope.
Notation "m ;; k" := (bind m (fun _ => k))
  (at level 61, right associativity) : script_scope.
Open Scope script_scope.

(** ** AWS configurations *)

Definition bucket_name : string := "sports-analytics-data-lake-osagie123".
Definition database_name : string := "glue_nba_data_lake".
Definition table_name : string := "nba_players".
Definition s3_output_location : string := "s3://" ++ bucket_name ++ "/athena-results/".

(** The key [upload_to_s3] writes to. *)
Definition file_key : string := "raw-data/nba_player_data.jsonl".

(** The [TableInput] [create_glue_table] passes. *)
Definition nba_players_table : TableInput :=
  {| ti_Name := table_name;
     ti_StorageDescriptor :=
       {| Columns := [ {| col_Name := "FirstName"; col_Type := "string" |};
                       {| col_Name := "LastName"; col_Type := "string" |};
                       {| col_Name := "Position"; col_Type := "string" |};
                       {| col_Name := "Team"; col_Type := "string" |} ];
          Location := "s3://" ++ bucket_name ++ "/raw-data/";
          InputFormat := "org.apache.hadoop.mapred.TextInputFormat";
          OutputFormat := "org.apache.hadoop.hive.ql.io.HiveIgnoreKeyTextOutputFormat";
          sd_SerdeInfo := {| SerializationLibrary := "org.openx.data.jsonserde.JsonSerDe" |} |};
     TableType := "EXTERNAL_TABLE" |}.

Section Steps.
Context {FM : FloatModel}.
Variable w : World.

(** [e.response["Error"]["Code"]]. *)
Definition response_Error_Code (e : exn) : string :=
  match e with ClientError code _ => code | _ => EmptyString end.

(** [Response.raise_for_status] of requests: an [HTTPError] for a status
    from 400 to 599, nothing otherwise. *)
Definition raise_for_status (r : Response) : result unit :=
  if ((400 <=? status_code r) && (status_code r <? 500))%Z then
    Raise (RequestException "HTTPError"
             (int_repr (status_code r) ++ " Client Error: " ++ reason r
              ++ " for url: " ++ response_url r))
  else if ((500 <=? status_code r) && (status_code r <? 600))%Z then
    Raise (RequestException "HTTPError"
             (int_repr (status_code r) ++ " Server Error: " ++ reason r
              ++ " for url: " ++ response_url r))
  else Ok tt.

(** Step 1: create the S3 bucket (if it does not exist). *)
Definition create_s3_bucket : M unit :=
  enter Fcreate_s3_bucket ;;
  try_except
    (invoke (CreateBucket bucket_name) (fun h => s3_create_bucket w h bucket_name) ;;
     print ("S3 bucket '" ++ bucket_name ++ "' created successfully."))
    is_ClientError
    (fun e =>
       if response_Error_Code e =? "BucketAlreadyOwnedByYou" then
         print ("S3 bucket '" ++ bucket_name ++ "' already exists. Skipping creation.")
       else
         print ("Error creating S3 bucket: " ++ exn_str e)).

(** Step 2: fetch the NBA data. *)
Definition fetch_nba_data : M pyval :=
  enter Ffetch_nba_data ;;
  try_except
    (let headers := [("Ocp-Apim-Subscription-Key", SPORTS_DATA_API_KEY w)] in
     response <- invoke (HttpGet (NBA_ENDPOINT_env w) headers)
                   (fun h => http_get w h (NBA_ENDPOINT_env w) headers) ;;
     lift (raise_for_status response) ;;
     print "Fetched NBA data successfully." ;;
     lift (json response))
    is_RequestException
    (fun e =>
       print ("Error fetching NBA data: " ++ exn_str e) ;;
       ret PyNone).

(** Step 3: upload the data to S3. *)
Definition upload_to_s3 (data : pyval) : M unit :=
  enter Fupload_to_s3 ;;
  try_except
    (records <- lift (py_iter data) ;;
     lines <- lift (dumps_each records) ;;
     let json_lines := String.concat newline lines in
     invoke (PutObject bucket_name file_key json_lines)
       (fun h => s3_put_object w h bucket_name file_key json_lines) ;;
     print ("Uploaded data to S3: " ++ file_key))
    is_ClientError
    (fun e => print ("Error uploading data to S3: " ++ exn_str e)).

(** [any(x["Name"] == name for x in existing)]. *)
Definition any_named (name : string) (existing : list Entry) : bool :=
  existsb (fun x => entry_Name x =? name) existing.

(** Step 4: create the Glue database (if it does not exist). *)
Definition create_glue_database : M unit :=
  enter Fcreate_glue_database ;;
  existing_databases <- invoke GetDatabases (glue_get_databases w) ;;
  if negb (any_named database_name existing_databases) then
    let input := {| di_Name := database_name; di_Description := "NBA Data Lake" |} in
    invoke (CreateDatabase input) (fun h => glue_create_database w h input) ;;
    print ("Glue database '" ++ database_name ++ "' created successfully.")
  else
    print ("Glue database '" ++ database_name ++ "' already exists. Skipping creation.").

(** Step 5: create the Glue table (if it does not exist). *)
Definition create_glue_table : M unit :=
  enter Fcreate_glue_table ;;
  existing_tables <- invoke (GetTables database_name)
                       (fun h => glue_get_tables w h database_name) ;;
  if negb (any_named table_name existing_tables) then
    invoke (CreateTable database_name nba_players_table)
      (fun h => glue_create_table w h database_name nba_players_table) ;;
    print ("Glue table '" ++ table_name ++ "' created successfully.")
  else
    print ("Glue table '" ++ table_name ++ "' already exists. Skipping creation.").

(** Step 6: configure the Athena query output. *)
Definition configure_athena : M unit :=
  enter Fconfigure_athena ;;
  try_except
    (invoke (StartQueryExecution "SELECT 1" database_name s3_output_location)
       (fun h => athena_start_query_execution w h "SELECT 1" database_name s3_output_location) ;;
     print "Athena output location configured successfully.")
    is_ClientError
    (fun e => print ("Error configuring Athena: " ++ exn_str e)).

(** The banner lines; each is printed between two blank lines. *)
Definition banner_start : string :=
  newline ++ "Setting up data lake for NBA sports analytics..." ++ newline.
Definition banner_done : string :=
  newline ++ "Data lake setup complete." ++ newline.

(** The script from its first step to the fetch included. *)
Definition up_to_fetch : M pyval :=
  print banner_start ;;
  create_s3_bucket ;;
  fetch_nba_data.

(** Run the steps. *)
Definition main : M unit :=
  print banner_start ;;
  create_s3_bucket ;;
  nba_data <- fetch_nba_data ;;
  (if truthy nba_data then upload_to_s3 nba_data else ret tt) ;;
  create_glue_database ;;
  create_glue_table ;;
  configure_athena ;;
  print banner_done.

(** Running a program from the start. *)
Definition run {A} (m : M A) : result A * state := m init.

(** The status the interpreter exits with: 0 when the module body ran to
    its end, 1 when an exception was never caught. *)
Definition exit_status (r : result unit) : Z :=
  match r with Ok _ => 0 | Raise _ => 1 end.

End Steps.

(** The script up to the table step included: what runs before
    [configure_athena]. *)
Definition up_to_table {FM : FloatModel} (w : World) : M unit :=
  print banner_start ;;
  create_s3_bucket w ;;
  nba_data <- fetch_nba_data w ;;
  (if truthy nba_data then upload_to_s3 w nba_data else ret tt) ;;
  create_glue_database w ;;
  create_glue_table w.

(** The steps after the upload. *)
Definition catalog_and_query {FM : FloatModel} (w : World) : M unit :=
  create_glue_database w ;;
  create_glue_table w ;;
  configure_athena w ;;
  print banner_done.

(** [s] between double quotes. *)
Definition quoted (s : string) : string :=
  String DQUOTE (s ++ String DQUOTE EmptyString).

(** The record [{"FirstName": "A", "LastName": "B", "Position": "G",
    "Team": "X"}] and the text [json.dumps] writes for it. *)
Definition player_A {FM : FloatModel} : pyval :=
  PyDict [ (u "FirstName", PyStr (u "A")); (u "LastName", PyStr (u "B"));
           (u "Position", PyStr (u "G")); (u "Team", PyStr (u "X")) ].

Definition player_A_json : string :=
  "{" ++ quoted "FirstName" ++ ": " ++ quoted "A" ++ ", "
      ++ quoted "LastName" ++ ": " ++ quoted "B" ++ ", "
      ++ quoted "Position" ++ ": " ++ quoted "G" ++ ", "
      ++ quoted "Team" ++ ": " ++ quoted "X" ++ "}".

(** ** Scenarios

    A small float model and a simulated account, to run the script on. *)

Inductive sample_float : Type := F_zero | F_half.

Definition sample_floats : FloatModel :=
  {| float := sample_float;
     float_repr := fun f => match f with F_zero => "0.0" | F_half => "0.5" end;
     float_nonzero := fun f => match f with F_zero => false | F_half => true end |}.

(** Exceptions the services may answer with, raised at a given operation. *)
Record Faults : Type := {
  at_create_bucket : option exn;
  at_put_object : option exn;
  at_get_databases : option exn;
  at_get_tables : option exn;
  at_start_query_execution : option exn
}.

Definition no_faults : Faults :=
  {| at_create_bucket := None; at_put_object := None; at_get_databases := None;
     at_get_tables := None; at_start_query_execution := None |}.

Definition or_fault (f : option exn) (r : result unit) : result unit :=
  match f with Some e => Raise e | None => r end.

Definition or_fault_list (f : option exn) (l : list Entry) : result (list Entry) :=
  match f with Some e => Raise e | None => Ok l end.

(** What the calls made so far have created. *)
Definition bucket_created (b : string) (h : list call) : bool :=
  existsb (fun c => match c with CreateBucket b' => b' =? b | _ => false end) h.

Fixpoint databases_created (h : list call) : list Entry :=
  match h with
  | [] => []
  | CreateDatabase i :: r => {| entry_Name := di_Name i |} :: databases_created r
  | _ :: r => databases_created r
  end.

Fixpoint tables_created (db : string) (h : list call) : list Entry :=
  match h with
  | [] => []
  | CreateTable d i :: r =>
      if d =? db then {| entry_Name := ti_Name i |} :: tables_created db r
      else tables_created db r
  | _ :: r => tables_created db r
  end.

Section Scenarios.
#[local] Existing Instance sample_floats.

(** An account that owns what the script created earlier and, to begin
    with, the given databases; the API answers [api]. *)
Definition account (api : result Response) (databases : list Entry) (faults : Faults) : World :=
  {| SPORTS_DATA_API_KEY := Some "0123456789abcdef";
     NBA_ENDPOINT_env := Some "https://api.sportsdata.io/v3/nba/scores/json/Players";
     s3_create_bucket := fun h b =>
       or_fault (at_create_bucket faults)
         (if bucket_created b h then
            Raise (ClientError "BucketAlreadyOwnedByYou"
                     "An error occurred (BucketAlreadyOwnedByYou) when calling the CreateBucket operation")
          else Ok tt);
     http_get := fun _ _ _ => api;
     s3_put_object := fun _ _ _ _ => or_fault (at_put_object faults) (Ok tt);
     glue_get_databases := fun h =>
       or_fault_list (at_get_databases faults) (databases ++ databases_created h);
     glue_create_database := fun _ _ => Ok tt;
     glue_get_tables := fun h db =>
       or_fault_list (at_get_tables faults) (tables_created db h);
     glue_create_table := fun _ _ _ => Ok tt;
     athena_start_query_execution := fun _ _ _ _ =>
       or_fault (at_start_query_execution faults) (Ok tt) |}.

(** A response with the given status and body. *)
Definition responded (status : Z) (phrase : string) (body : pyval) : result Response :=
  Ok {| status_code := status; reason := phrase;
        response_url := "https://api.sportsdata.io/v3/nba/scores/json/Players";
        json := Ok body |}.

Definition connection_error : exn :=
  RequestException "ConnectionError" "HTTPSConnectionPool: Max retries exceeded".

Definition access_denied : exn :=
  ClientError "AccessDeniedException"
    "An error occurred (AccessDeniedException): User is not authorized".

Definition endpoint_unreachable : exn :=
  OtherException "EndpointConnectionError" "Could not connect to the endpoint URL".

(** Everything works and one player comes back. *)
Definition world_fine : World :=
  account (responded 200 "OK" (PyList [player_A])) [] no_faults.

(** The catalog refuses to list the databases. *)
Definition world_glue_denied : World :=
  account (responded 200 "OK" (PyList [player_A])) []
    {| at_create_bucket := None; at_put_object := None;
       at_get_databases := Some access_denied;
       at_get_tables := None; at_start_query_execution := None |}.

(** The catalog lists the databases and refuses to list the tables. *)
Definition world_tables_denied : World :=
  account (responded 200 "OK" (PyList [player_A])) []
    {| at_create_bucket := None; at_put_object := None; at_get_databases := None;
       at_get_tables := Some access_denied; at_start_query_execution := None |}.

(** The API answers 200 with the empty array. *)
Definition world_no_players : World :=
  account (responded 200 "OK" (PyList [])) [] no_faults.

(** The API answers 300 Multiple Choices, with a JSON array as body. *)
Definition world_status_300 : World :=
  account (responded 300 "Multiple Choices" (PyList [player_A])) [] no_faults.

(** The API answers 200 with the body [true]. *)
Definition world_body_true : World :=
  account (responded 200 "OK" (PyBool true)) [] no_faults.

(** The API cannot be reached, and then the catalog endpoint cannot either. *)
Definition world_offline : World :=
  account (Raise connection_error) []
    {| at_create_bucket := None; at_put_object := None;
       at_get_databases := Some endpoint_unreachable;
       at_get_tables := None; at_start_query_execution := None |}.

(** The API cannot be reached; the account works. *)
Definition world_api_down : World :=
  account (Raise connection_error) [] no_faults.

(** The database exists already, under its name in upper case only. *)
Definition world_upper_case : World :=
  account (responded 200 "OK" (PyList [])) [ {| entry_Name := "GLUE_NBA_DATA_LAKE" |} ] no_faults.

(** The query service cannot be reached. *)
Definition world_athena_unreachable : World :=
  account (responded 200 "OK" (PyList [player_A])) []
    {| at_create_bucket := None; at_put_object := None; at_get_databases := None;
       at_get_tables := None; at_start_query_execution := Some endpoint_unreachable |}.

(** A response with status 200 whose body does not decode: decoding it
    raises [e]. *)
Definition undecodable (e : exn) : result Response :=
  Ok {| status_code := 200; reason := "OK";
        response_url := "https://api.sportsdata.io/v3/nba/scores/json/Players";
        json := Raise e |}.

(** The body is no JSON, and requests says so with its own exception. *)
Definition world_body_not_json : World :=
  account (undecodable (RequestException "JSONDecodeError" "Expecting value: line 1 column 1 (char 0)"))
    [] no_faults.

(** The body is no JSON, and the decoder's [ValueError] comes through, as
    with a requests that does not wrap it. *)
Definition world_body_not_json_unwrapped : World :=
  account (undecodable (OtherException "JSONDecodeError" "Expecting value: line 1 column 1 (char 0)"))
    [] no_faults.

(** The bucket name is taken by another account. *)
Definition world_bucket_taken : World :=
  account (responded 200 "OK" (PyList [player_A])) []
    {| at_create_bucket :=
         Some (ClientError "BucketAlreadyExists"
                 "An error occurred (BucketAlreadyExists): The requested bucket name is not available");
       at_put_object := None; at_get_databases := None;
       at_get_tables := None; at_start_query_execution := None |}.

(** The account may not write to the bucket. *)
Definition world_put_denied : World :=
  account (responded 200 "OK" (PyList [player_A])) []
    {| at_create_bucket := None;
       at_put_object := Some (ClientError "AccessDenied"
                                "An error occurred (AccessDenied): Access Denied");
       at_get_databases := None;
       at_get_tables := None; at_start_query_execution := None |}.

End Scenarios.

(** ** Measures used to state properties of a run *)

(** The place of a call in the order in which the script makes its calls. *)
Definition call_rank (c : call) : nat :=
  match c with
  | CreateBucket _ => 1
  | HttpGet _ _ => 2
  | PutObject _ _ _ => 3
  | GetDatabases => 4
  | CreateDatabase _ => 5
  | GetTables _ => 6
  | CreateTable _ _ => 7
  | StartQueryExecution _ _ _ => 8
  end.

(** A value made of what JSON has only: no object of another class in it. *)
Fixpoint is_json {FM : FloatModel} (v : pyval) : bool :=
  match v with
  | PyObject _ => false
  | PyList l => forallb is_json l
  | PyDict d => forallb (fun kv => is_json (snd kv)) d
  | _ => true
  end.

(** A printable ASCII character, from the space to the tilde. *)
Definition plain_char (c : ascii) : bool :=
  ((32 <=? N_of_ascii c) && (N_of_ascii c <=? 126))%N.

Fixpoint all_chars (p : ascii -> bool) (s : string) : bool :=
  match s with
  | EmptyString => true
  | String c r => p c && all_chars p r
  end.

(** What a character of an uploaded body can be. *)
Definition body_char (c : ascii) : bool := is_LF c || plain_char c.

(** The floats are written in printable ASCII. *)
Definition float_plain {FM : FloatModel} : Prop :=
  forall f : float, all_chars plain_char (float_repr f) = true.

(** Calls made in the order of the script, each operation at most once,
    with places from [lo] to [hi]. *)
Definition in_order (lo hi : nat) (cs : list call) : Prop :=
  StronglySorted lt (map call_rank cs) /\
  Forall (fun c => lo <= call_rank c <= hi) cs.

(** A program that adds such calls to those made before it. *)
Definition issues {A} (lo hi : nat) (m : M A) : Prop :=
  forall st, exists cs,
    calls (snd (m st)) = (calls st ++ cs)%list /\ in_order lo hi cs.

(** A program that adds lines to those printed before it, none of them the
    closing banner. *)
Definition prints_on {A} (m : M A) : Prop :=
  forall st, exists ls,
    stdout (snd (m st)) = (stdout st ++ ls)%list /\ ~ In banner_done ls.

(** The five steps between the banner and the query step. *)
Definition bucket_to_table {FM : FloatModel} (w : World) : M unit :=
  create_s3_bucket w ;;
  nba_data <- fetch_nba_data w ;;
  (if truthy nba_data then upload_to_s3 w nba_data else ret tt) ;;
  create_glue_database w ;;
  create_glue_table w.

(** A world in which the script has nothing to fear: the catalog answers
    every call, the other services fail with a [ClientError] if they fail,
    the GET fails with a requests exception if it fails, and a body that
    decodes is a JSON array. *)
Definition tolerable_world {FM : FloatModel} (w : World) : Prop :=
  (forall h e, s3_create_bucket w h bucket_name = Raise e -> is_ClientError e = true) /\
  (forall h hd e, http_get w h (NBA_ENDPOINT_env w) hd = Raise e ->
                  is_RequestException e = true) /\
  (forall h hd r, http_get w h (NBA_ENDPOINT_env w) hd = Ok r ->
     (exists l, json r = Ok (PyList l) /\ forallb is_json l = true) \/
     (exists e, json r = Raise e /\ is_RequestException e = true)) /\
  (forall h body e, s3_put_object w h bucket_name file_key body = Raise e ->
                    is_ClientError e = true) /\
  (forall h, exists l, glue_get_databases w h = Ok l) /\
  (forall h input, glue_create_database w h input = Ok tt) /\
  (forall h, exists l, glue_get_tables w h database_name = Ok l) /\
  (forall h input, glue_create_table w h database_name input = Ok tt) /\
  (forall h e,
     athena_start_query_execution w h "SELECT 1" database_name s3_output_location = Raise e ->
     is_ClientError e = true).

(** * Properties *)

(** ** Lines *)

Lemma has_newline_app (a b : string) :
  has_newline (a ++ b) = has_newline a || has_newline b.
Proof.
  induction a as [|c a IH]; simpl.
  - reflexivity.
  - now rewrite IH, orb_assoc.
Qed.

Lemma has_newline_concat (sep : string) (ss : list string) :
  has_newline sep = false ->
  Forall (fun s => has_newline s = false) ss ->
  has_newline (String.concat sep ss) = false.
Proof.
  intros Hsep Hss.
  induction Hss as [|s r Hs Hr IH]; [reflexivity|].
  destruct r as [|s' r]; [exact Hs|].
  change (has_newline (s ++ sep ++ String.concat sep (s' :: r)) = false).
  now rewrite !has_newline_app, Hs, Hsep, IH.
Qed.

Lemma split_lines_one_line (s : string) :
  has_newline s = false -> split_lines s = [s].
Proof.
  induction s as [|c s IH]; simpl; intros H.
  - reflexivity.
  - apply orb_false_elim in H as [Hc Hs].
    now rewrite Hc, (IH Hs).
Qed.

Lemma split_lines_first_line (a b : string) :
  has_newline a = false ->
  split_lines (a ++ String LF b) = a :: split_lines b.
Proof.
  induction a as [|c a IH]; simpl; intros H.
  - reflexivity.
  - apply orb_false_elim in H as [Hc Ha].
    now rewrite Hc, (IH Ha).
Qed.

(** Splitting what [join] built gives the pieces back, when none holds a
    line feed. *)
Lemma split_lines_join (ss : list string) :
  ss <> [] ->
  Forall (fun s => has_newline s = false) ss ->
  split_lines (String.concat newline ss) = ss.
Proof.
  intros Hne Hss.
  induction Hss as [|s r Hs Hr IH]; [congruence|].
  destruct r as [|s' r].
  - now apply split_lines_one_line.
  - change (split_lines (s ++ String LF (String.concat newline (s' :: r))) = s :: s' :: r).
    rewrite (split_lines_first_line _ _ Hs).
    f_equal. apply IH. discriminate.
Qed.

Lemma last_char_app (a b : string) :
  b <> EmptyString -> last_char (a ++ b) = last_char b.
Proof.
  intros Hb. induction a as [|c a IH]; simpl.
  - reflexivity.
  - rewrite IH. destruct (a ++ b) eqn:E; [|reflexivity].
    destruct a; simpl in E; [congruence | discriminate].
Qed.

Lemma last_char_in_line (s : string) :
  has_newline s = false -> last_char s <> Some LF.
Proof.
  induction s as [|c s IH]; simpl; intros H.
  - discriminate.
  - apply orb_false_elim in H as [Hc Hs].
    destruct s as [|c' s'].
    + intros E. injection E as ->. discriminate.
    + now apply IH.
Qed.

Lemma concat_nonempty (sep : string) (ss : list string) :
  ss <> [] ->
  Forall (fun s => s <> EmptyString) ss ->
  String.concat sep ss <> EmptyString.
Proof.
  intros Hne Hss. destruct Hss as [|s r Hs Hr]; [congruence|].
  destruct r as [|s' r]; [exact Hs|].
  change (s ++ sep ++ String.concat sep (s' :: r) <> EmptyString).
  destruct s; [congruence | discriminate].
Qed.

(** A body joined from non-empty one-line pieces does not end in a line
    feed. *)
Lemma join_no_trailing_newline (ss : list string) :
  Forall (fun s => has_newline s = false) ss ->
  Forall (fun s => s <> EmptyString) ss ->
  last_char (String.concat newline ss) <> Some LF.
Proof.
  intros Hl. induction Hl as [|s r Hs Hr IH]; intros Hn.
  - discriminate.
  - destruct r as [|s' r].
    + now apply last_char_in_line.
    + change (last_char (s ++ String LF (String.concat newline (s' :: r))) <> Some LF).
      inversion Hn as [|? ? _ Hn']; subst.
      rewrite last_char_app by discriminate.
      change (last_char (newline ++ String.concat newline (s' :: r)) <> Some LF).
      rewrite last_char_app; [now apply IH|].
      apply concat_nonempty; [discriminate | assumption].
Qed.

(** ** What [json.dumps] writes *)

Section Pyval_induction.
Context {FM : FloatModel}.
Variable P : pyval -> Prop.
Hypothesis P_none : P PyNone.
Hypothesis P_bool : forall b, P (PyBool b).
Hypothesis P_int : forall z, P (PyInt z).
Hypothesis P_float : forall f, P (PyFloat f).
Hypothesis P_str : forall s, P (PyStr s).
Hypothesis P_list : forall l, Forall P l -> P (PyList l).
Hypothesis P_dict : forall d, Forall (fun kv => P (snd kv)) d -> P (PyDict d).
Hypothesis P_object : forall c, P (PyObject c).

(** Induction on a value, with the property at hand for every element of a
    list and every value of a dict. *)
Lemma pyval_nested_ind : forall v, P v.
Proof.
  fix rec 1. intros [ | b | z | f | s | l | d | c ].
  - exact P_none.
  - apply P_bool.
  - apply P_int.
  - apply P_float.
  - apply P_str.
  - apply P_list. induction l as [|x r IHr]; constructor; [apply rec | exact IHr].
  - apply P_dict. induction d as [|[k x] r IHr]; constructor; [apply rec | exact IHr].
  - apply P_object.
Qed.

End Pyval_induction.

Section Json.
Context {FM : FloatModel}.

Lemma json_dumps_list (l : list pyval) :
  json_dumps (PyList l) =
  match dumps_each l with
  | Raise e => Raise e
  | Ok ss => Ok ("[" ++ String.concat ", " ss ++ "]")
  end.
Proof.
  simpl.
  match goal with
  | |- match ?a with _ => _ end = _ => replace a with (dumps_each l); [reflexivity|]
  end.
  induction l as [|x r IH]; simpl; [reflexivity|].
  destruct (json_dumps x); [|reflexivity]. now rewrite IH.
Qed.

Lemma json_dumps_dict (d : list (pystr * pyval)) :
  json_dumps (PyDict d) =
  match dumps_members d with
  | Raise e => Raise e
  | Ok ss => Ok ("{" ++ String.concat ", " ss ++ "}")
  end.
Proof.
  simpl.
  match goal with
  | |- match ?a with _ => _ end = _ => replace a with (dumps_members d); [reflexivity|]
  end.
  induction d as [|[k x] r IH]; simpl; [reflexivity|].
  destruct (json_dumps x); [|reflexivity]. now rewrite IH.
Qed.

Lemma hex_digit_not_LF (d : N) : is_LF (hex_digit d) = false.
Proof.
  unfold hex_digit. generalize (N.to_nat d) as k. intros k.
  do 16 (destruct k as [|k]; [reflexivity|]). reflexivity.
Qed.

Lemma hex04_one_line (n : N) : has_newline (hex04 n) = false.
Proof.
  unfold hex04. simpl. now rewrite !hex_digit_not_LF.
Qed.

Lemma u_escape_one_line (n : N) : has_newline (u_escape n) = false.
Proof.
  unfold u_escape.
  change (has_newline (String BACKSLASH (String "u" (hex04 n))))
    with (is_LF BACKSLASH || (is_LF "u" || has_newline (hex04 n))).
  now rewrite hex04_one_line.
Qed.

Lemma printable_not_LF (n : N) :
  (32 <= n)%N -> (n <= 126)%N -> is_LF (ascii_of_N n) = false.
Proof.
  intros Hlo Hhi. unfold is_LF.
  destruct (Ascii.eqb (ascii_of_N n) LF) eqn:E; [|reflexivity].
  apply Ascii.eqb_eq in E.
  assert (Hn : N_of_ascii (ascii_of_N n) = n) by (apply N_ascii_embedding; lia).
  rewrite E in Hn. simpl in Hn. lia.
Qed.

(** No code point is written with a line feed: the line feed itself
    becomes the two characters [\n]. *)
Lemma escape_char_one_line (n : N) : has_newline (escape_char n) = false.
Proof.
  unfold escape_char.
  destruct (n =? 92)%N; [reflexivity|].
  destruct (n =? 34)%N; [reflexivity|].
  destruct ((32 <=? n) && (n <=? 126))%N eqn:Hp.
  - apply andb_true_iff in Hp as [Hlo Hhi].
    apply N.leb_le in Hlo, Hhi. simpl.
    now rewrite printable_not_LF.
  - destruct (n =? 8)%N; [reflexivity|].
    destruct (n =? 12)%N; [reflexivity|].
    destruct (n =? 10)%N; [reflexivity|].
    destruct (n =? 13)%N; [reflexivity|].
    destruct (n =? 9)%N; [reflexivity|].
    destruct (n <? 65536)%N; [apply u_escape_one_line|].
    cbv zeta. now rewrite has_newline_app, !u_escape_one_line.
Qed.

Lemma encode_basestring_ascii_one_line (s : pystr) :
  has_newline (encode_basestring_ascii s) = false.
Proof.
  unfold encode_basestring_ascii.
  change (is_LF DQUOTE
          || has_newline (String.concat EmptyString (map escape_char s)
                          ++ String DQUOTE EmptyString) = false).
  rewrite has_newline_app, has_newline_concat; [reflexivity | reflexivity |].
  apply Forall_forall. intros x Hx.
  apply in_map_iff in Hx as [n [<- _]]. apply escape_char_one_line.
Qed.

Lemma string_of_uint_one_line (d : Decimal.uint) :
  has_newline (NilEmpty.string_of_uint d) = false.
Proof.
  induction d; simpl; auto.
Qed.

Lemma int_repr_one_line (z : Z) : has_newline (int_repr z) = false.
Proof.
  unfold int_repr, NilZero.string_of_int, NilZero.string_of_uint.
  destruct (Z.to_int z) as [d|d]; destruct d; simpl;
    try reflexivity; apply string_of_uint_one_line.
Qed.

Lemma int_repr_nonempty (z : Z) : int_repr z <> EmptyString.
Proof.
  unfold int_repr, NilZero.string_of_int, NilZero.string_of_uint.
  destruct (Z.to_int z) as [d|d]; destruct d; simpl; discriminate.
Qed.

Lemma dumps_each_Forall2 (l : list pyval) (ss : list string) :
  dumps_each l = Ok ss -> Forall2 (fun r s => json_dumps r = Ok s) l ss.
Proof.
  revert ss. induction l as [|x r IH]; simpl; intros ss H.
  - injection H as <-. constructor.
  - destruct (json_dumps x) as [s|] eqn:Hx; [|discriminate].
    destruct (dumps_each r) as [ss'|]; [|discriminate].
    injection H as <-. constructor; [exact Hx | now apply IH].
Qed.

(** Every value that can be written is written on one line, and the text
    is not empty. *)
Lemma json_dumps_one_line :
  float_tokens ->
  forall v s, json_dumps v = Ok s -> has_newline s = false /\ s <> EmptyString.
Proof.
  intros Hfloat.
  induction v as [ | b | z | f | p | l IHl | d IHd | c ] using pyval_nested_ind;
    intros s H.
  - injection H as <-. split; [reflexivity | discriminate].
  - destruct b; injection H as <-; (split; [reflexivity | discriminate]).
  - injection H as <-. split; [apply int_repr_one_line | apply int_repr_nonempty].
  - injection H as <-. apply Hfloat.
  - injection H as <-. split; [apply encode_basestring_ascii_one_line | discriminate].
  - rewrite json_dumps_list in H.
    destruct (dumps_each l) as [ss|] eqn:Hss; [|discriminate].
    injection H as <-. split; [|discriminate].
    change (is_LF "[" || has_newline (String.concat ", " ss ++ "]") = false).
    rewrite has_newline_app, has_newline_concat; [reflexivity | reflexivity |].
    apply dumps_each_Forall2 in Hss. clear - IHl Hss.
    induction Hss as [|x s r ss Hx _ IH]; constructor.
    + inversion IHl as [|? ? Px _]; subst. now apply Px.
    + apply IH. now inversion IHl.
  - rewrite json_dumps_dict in H.
    destruct (dumps_members d) as [ss|] eqn:Hss; [|discriminate].
    injection H as <-. split; [|discriminate].
    change (is_LF "{" || has_newline (String.concat ", " ss ++ "}") = false).
    rewrite has_newline_app, has_newline_concat; [reflexivity | reflexivity |].
    clear - IHd Hss. revert ss Hss.
    induction d as [|[k x] r IH]; simpl; intros ss Hss.
    + injection Hss as <-. constructor.
    + destruct (json_dumps x) as [s|] eqn:Hx; [|discriminate].
      destruct (dumps_members r) as [ss'|]; [|discriminate].
      injection Hss as <-.
      inversion IHd as [|? ? Px Pr]; subst. constructor.
      * destruct (Px s Hx) as [Hs _].
        change (has_newline (encode_basestring_ascii k ++ (": " ++ s)) = false).
        rewrite !has_newline_app, encode_basestring_ascii_one_line, Hs.
        reflexivity.
      * now apply IH.
  - discriminate.
Qed.

Lemma dumps_each_lines :
  float_tokens ->
  forall l ss, dumps_each l = Ok ss ->
  Forall (fun s => has_newline s = false) ss /\ Forall (fun s => s <> EmptyString) ss.
Proof.
  intros Hfloat l ss H. apply dumps_each_Forall2 in H.
  induction H as [|x s r ss' Hx _ [IH1 IH2]]; [split; constructor|].
  destruct (json_dumps_one_line Hfloat _ _ Hx). split; constructor; assumption.
Qed.

Lemma dumps_each_nth (l : list pyval) (ss : list string) :
  dumps_each l = Ok ss ->
  List.length ss = List.length l /\
  forall i r, nth_error l i = Some r ->
              exists s, nth_error ss i = Some s /\ json_dumps r = Ok s.
Proof.
  intros H. apply dumps_each_Forall2 in H.
  induction H as [|x s r ss' Hx _ [IHlen IHnth]].
  - split; [reflexivity|]. intros [|i] r H; discriminate.
  - split; [simpl; now rewrite IHlen|].
    intros [|i] y Hy; simpl in *.
    + injection Hy as <-. now exists s.
    + now apply IHnth.
Qed.

End Json.

(** ** The steps, one at a time *)

Section Step_properties.
Context {FM : FloatModel}.
Variable w : World.

Lemma any_named_iff (name : string) (l : list Entry) :
  any_named name l = true <-> exists x, In x l /\ entry_Name x = name.
Proof.
  unfold any_named. rewrite existsb_exists.
  split; intros [x [Hx E]]; exists x; (split; [exact Hx|]); now apply String.eqb_eq.
Qed.

Lemma any_named_false_iff (name : string) (l : list Entry) :
  any_named name l = false <-> forall x, In x l -> entry_Name x <> name.
Proof.
  split.
  - intros H x Hx E.
    assert (any_named name l = true) by (apply any_named_iff; now exists x).
    congruence.
  - intros H. destruct (any_named name l) eqn:E; [|reflexivity].
    apply any_named_iff in E as [x [Hx E]]. now elim (H x Hx).
Qed.

(** Each step enters its own function and nothing else. *)
Lemma create_s3_bucket_entered (st : state) :
  entered (snd (create_s3_bucket w st)) = (entered st ++ [Fcreate_s3_bucket])%list.
Proof.
  unfold create_s3_bucket, try_except, bind, invoke, print, enter. simpl.
  destruct (s3_create_bucket w (calls st) bucket_name) as [[]|e]; simpl; [reflexivity|].
  destruct (is_ClientError e); [|reflexivity].
  now destruct (response_Error_Code e =? "BucketAlreadyOwnedByYou").
Qed.

Lemma fetch_nba_data_entered (st : state) :
  entered (snd (fetch_nba_data w st)) = (entered st ++ [Ffetch_nba_data])%list.
Proof.
  unfold fetch_nba_data, try_except, bind, invoke, print, enter, lift, ret. simpl.
  destruct (http_get w (calls st) _ _) as [r|e]; simpl.
  - destruct (raise_for_status r) as [[]|e]; simpl.
    + destruct (json r) as [v|e]; simpl; [reflexivity|].
      now destruct (is_RequestException e).
    + now destruct (is_RequestException e).
  - now destruct (is_RequestException e).
Qed.

Lemma upload_to_s3_entered (data : pyval) (st : state) :
  entered (snd (upload_to_s3 w data st)) = (entered st ++ [Fupload_to_s3])%list.
Proof.
  unfold upload_to_s3, try_except, bind, invoke, print, enter, lift. simpl.
  destruct (py_iter data) as [records|e]; simpl.
  - destruct (dumps_each records) as [lines|e]; simpl.
    + destruct (s3_put_object w (calls st) _ _ _) as [[]|e]; simpl; [reflexivity|].
      now destruct (is_ClientError e).
    + now destruct (is_ClientError e).
  - now destruct (is_ClientError e).
Qed.

Lemma create_glue_database_entered (st : state) :
  entered (snd (create_glue_database w st)) = (entered st ++ [Fcreate_glue_database])%list.
Proof.
  unfold create_glue_database, bind, invoke, print, enter. simpl.
  destruct (glue_get_databases w (calls st)) as [l|e]; simpl; [|reflexivity].
  destruct (any_named database_name l); simpl; [reflexivity|].
  now destruct (glue_create_database w _ _) as [[]|e].
Qed.

Lemma create_glue_table_entered (st : state) :
  entered (snd (create_glue_table w st)) = (entered st ++ [Fcreate_glue_table])%list.
Proof.
  unfold create_glue_table, bind, invoke, print, enter. simpl.
  destruct (glue_get_tables w (calls st) database_name) as [l|e]; simpl; [|reflexivity].
  destruct (any_named table_name l); simpl; [reflexivity|].
  now destruct (glue_create_table w _ _ _) as [[]|e].
Qed.

Lemma configure_athena_entered (st : state) :
  entered (snd (configure_athena w st)) = (entered st ++ [Fconfigure_athena])%list.
Proof.
  unfold configure_athena, try_except, bind, invoke, print, enter. simpl.
  destruct (athena_start_query_execution w (calls st) _ _ _) as [[]|e]; simpl; [reflexivity|].
  now destruct (is_ClientError e).
Qed.

(** The calls a step adds to those made before it. *)
Lemma create_s3_bucket_calls (st : state) :
  calls (snd (create_s3_bucket w st)) = (calls st ++ [CreateBucket bucket_name])%list.
Proof.
  unfold create_s3_bucket, try_except, bind, invoke, print, enter. simpl.
  destruct (s3_create_bucket w (calls st) bucket_name) as [[]|e]; simpl; [reflexivity|].
  destruct (is_ClientError e); [|reflexivity].
  now destruct (response_Error_Code e =? "BucketAlreadyOwnedByYou").
Qed.

Lemma upload_to_s3_calls (data : pyval) (st : state) :
  calls (snd (upload_to_s3 w data st)) = calls st \/
  exists body,
    calls (snd (upload_to_s3 w data st))
    = (calls st ++ [PutObject bucket_name file_key body])%list.
Proof.
  unfold upload_to_s3, try_except, bind, invoke, print, enter, lift. simpl.
  destruct (py_iter data) as [records|e]; simpl.
  - destruct (dumps_each records) as [lines|e]; simpl.
    + right. exists (String.concat newline lines).
      destruct (s3_put_object w (calls st) _ _ _) as [[]|e]; simpl; [reflexivity|].
      now destruct (is_ClientError e).
    + left. now destruct (is_ClientError e).
  - left. now destruct (is_ClientError e).
Qed.

(** A list of records whose texts are [lines] is put as their join. *)
Lemma upload_to_s3_list (l : list pyval) (lines : list string) (st : state) :
  dumps_each l = Ok lines ->
  calls (snd (upload_to_s3 w (PyList l) st))
  = (calls st ++ [PutObject bucket_name file_key (String.concat newline lines)])%list.
Proof.
  intros H.
  unfold upload_to_s3, try_except, bind, invoke, print, enter, lift.
  cbn [py_iter]. rewrite H. simpl.
  destruct (s3_put_object w (calls st) _ _ _) as [[]|e]; simpl; [reflexivity|].
  now destruct (is_ClientError e).
Qed.

(** The three steps with a handler return normally whatever [ClientError]
    their call raises, and the fetch step whatever requests exception. *)
Lemma handlers_catch (st : state) (e : exn) :
  (is_ClientError e = true ->
   s3_create_bucket w (calls st) bucket_name = Raise e ->
   fst (create_s3_bucket w st) = Ok tt) /\
  (is_ClientError e = true ->
   forall l lines,
     dumps_each l = Ok lines ->
     s3_put_object w (calls st) bucket_name file_key (String.concat newline lines) = Raise e ->
     fst (upload_to_s3 w (PyList l) st) = Ok tt) /\
  (is_ClientError e = true ->
   athena_start_query_execution w (calls st) "SELECT 1" database_name s3_output_location
   = Raise e ->
   fst (configure_athena w st) = Ok tt) /\
  (is_RequestException e = true ->
   http_get w (calls st) (NBA_ENDPOINT_env w)
     [("Ocp-Apim-Subscription-Key", SPORTS_DATA_API_KEY w)] = Raise e ->
   fst (fetch_nba_data w st) = Ok PyNone).
Proof.
  repeat apply conj.
  - intros He H.
    unfold create_s3_bucket, try_except, bind, invoke, print, enter.
    cbn [calls stdout entered]. rewrite H, He.
    now destruct (response_Error_Code e =? "BucketAlreadyOwnedByYou").
  - intros He l lines Hlines H.
    unfold upload_to_s3, try_except, bind, invoke, print, enter, lift.
    cbn [py_iter calls stdout entered]. now rewrite Hlines, H, He.
  - intros He H.
    unfold configure_athena, try_except, bind, invoke, print, enter.
    cbn [calls stdout entered]. now rewrite H, He.
  - intros He H.
    unfold fetch_nba_data, try_except, bind, invoke, print, enter, lift, ret.
    cbn [calls stdout entered]. now rewrite H, He.
Qed.

(** The database and table steps have no handler: what their listing call
    raises leaves the step. *)
Lemma catalog_steps_propagate (st : state) (e : exn) :
  (glue_get_databases w (calls st) = Raise e ->
   fst (create_glue_database w st) = Raise e) /\
  (glue_get_tables w (calls st) database_name = Raise e ->
   fst (create_glue_table w st) = Raise e).
Proof.
  split; intros H.
  - unfold create_glue_database, bind, invoke, print, enter.
    cbn [calls stdout entered]. now rewrite H.
  - unfold create_glue_table, bind, invoke, print, enter.
    cbn [calls stdout entered]. now rewrite H.
Qed.

End Step_properties.

Section Step_claims.
Context {FM : FloatModel}.
Variable w : World.

(** C4.  For the single-record input
    [[{"FirstName":"A","LastName":"B","Position":"G","Team":"X"}]] the body
    [upload_to_s3] puts is exactly the text [json.dumps] writes for that one
    object: one line, with no line feed in it or after it, and nothing
    else; it is put once, to the fixed bucket and key. *)
Theorem C4_single_record_body (st : state) :
  json_dumps player_A = Ok player_A_json /\
  calls (snd (upload_to_s3 w (PyList [player_A]) st))
  = (calls st ++ [PutObject bucket_name file_key player_A_json])%list /\
  has_newline player_A_json = false /\
  split_lines player_A_json = [player_A_json] /\
  last_char player_A_json = Some "}"%char.
Proof.
  assert (Hjson : json_dumps player_A = Ok player_A_json) by reflexivity.
  split; [exact Hjson|]. split.
  - apply (upload_to_s3_list w [player_A] [player_A_json]).
    cbn [dumps_each]. now rewrite Hjson.
  - repeat split; reflexivity.
Qed.

(** C5.  Running [create_s3_bucket] twice never raises when the first
    [create_bucket] call succeeds and the second is answered with the error
    code [BucketAlreadyOwnedByYou]: the first run reports the creation, the
    second reports that the bucket exists, and the only calls made are the
    two [create_bucket] calls, so the case is recognised from the error of
    the create call and not from a check made before it. *)
Theorem C5_bucket_creation_twice (st : state) (text : string) :
  s3_create_bucket w (calls st) bucket_name = Ok tt ->
  s3_create_bucket w (calls st ++ [CreateBucket bucket_name]) bucket_name
  = Raise (ClientError "BucketAlreadyOwnedByYou" text) ->
  (create_s3_bucket w ;; create_s3_bucket w) st
  = (Ok tt,
     {| calls := calls st ++ [CreateBucket bucket_name; CreateBucket bucket_name];
        stdout := stdout st
                  ++ ["S3 bucket '" ++ bucket_name ++ "' created successfully.";
                      "S3 bucket '" ++ bucket_name ++ "' already exists. Skipping creation."];
        entered := entered st ++ [Fcreate_s3_bucket; Fcreate_s3_bucket] |}).
Proof.
  intros Hfirst Hsecond.
  unfold create_s3_bucket, try_except, bind, invoke, print, enter.
  cbn [calls stdout entered]. rewrite Hfirst.
  cbn [calls stdout entered]. rewrite Hsecond.
  cbn [is_ClientError response_Error_Code calls stdout entered].
  rewrite String.eqb_refl. cbn [calls stdout entered].
  now rewrite <- !app_assoc.
Qed.

(** C6.  Whatever list the catalog returns, the database step issues
    [create_database] exactly when no entry of the list has the name
    [database_name], character for character, and the table step issues
    [create_table] exactly when no entry has the name [table_name]; when an
    entry has the name, the listing call is the only call made. *)
Theorem C6_create_iff_name_absent (st : state) :
  (forall l, glue_get_databases w (calls st) = Ok l ->
     exists issued,
       calls (snd (create_glue_database w st)) = (calls st ++ GetDatabases :: issued)%list /\
       ((exists x, In x l /\ entry_Name x = database_name) -> issued = []) /\
       ((forall x, In x l -> entry_Name x <> database_name) ->
        issued = [CreateDatabase {| di_Name := database_name;
                                    di_Description := "NBA Data Lake" |}])) /\
  (forall l, glue_get_tables w (calls st) database_name = Ok l ->
     exists issued,
       calls (snd (create_glue_table w st))
       = (calls st ++ GetTables database_name :: issued)%list /\
       ((exists x, In x l /\ entry_Name x = table_name) -> issued = []) /\
       ((forall x, In x l -> entry_Name x <> table_name) ->
        issued = [CreateTable database_name nba_players_table])).
Proof.
  split; intros l Hl.
  - unfold create_glue_database, bind, invoke, print, enter.
    cbn [calls stdout entered]. rewrite Hl.
    destruct (any_named database_name l) eqn:Hany; cbn [negb].
    + exists []. split; [reflexivity|]. split; [reflexivity|].
      intros Hno. apply any_named_false_iff in Hno. congruence.
    + eexists. split; [|split; [|reflexivity]].
      * destruct (glue_create_database w _ _) as [[]|e]; cbn [snd calls];
          now rewrite <- app_assoc.
      * intros Hsome. apply any_named_iff in Hsome. congruence.
  - unfold create_glue_table, bind, invoke, print, enter.
    cbn [calls stdout entered]. rewrite Hl.
    destruct (any_named table_name l) eqn:Hany; cbn [negb].
    + exists []. split; [reflexivity|]. split; [reflexivity|].
      intros Hno. apply any_named_false_iff in Hno. congruence.
    + eexists. split; [|split; [|reflexivity]].
      * destruct (glue_create_table w _ _ _) as [[]|e]; cbn [snd calls];
          now rewrite <- app_assoc.
      * intros Hsome. apply any_named_iff in Hsome. congruence.
Qed.

(** C7.  When the table step creates the table, it creates, in
    [database_name], an [EXTERNAL_TABLE] named [table_name] with exactly the
    four columns FirstName, LastName, Position and Team, each of type
    string; its location is the [raw-data/] folder of the bucket, the one
    the key of the uploaded object lies in; it declares the text input and
    output formats and the JSON SerDe. *)
Theorem C7_created_table (st : state) (l : list Entry) :
  glue_get_tables w (calls st) database_name = Ok l ->
  any_named table_name l = false ->
  exists T,
    calls (snd (create_glue_table w st))
    = (calls st ++ [GetTables database_name; CreateTable database_name T])%list /\
    ti_Name T = table_name /\
    TableType T = "EXTERNAL_TABLE" /\
    map (fun c => (col_Name c, col_Type c)) (Columns (ti_StorageDescriptor T))
    = [("FirstName", "string"); ("LastName", "string");
       ("Position", "string"); ("Team", "string")] /\
    Location (ti_StorageDescriptor T) = "s3://" ++ bucket_name ++ "/raw-data/" /\
    (forall data st0 b k body,
       In (PutObject b k body) (calls (snd (upload_to_s3 w data st0))) ->
       ~ In (PutObject b k body) (calls st0) ->
       "s3://" ++ b ++ "/" ++ k
       = Location (ti_StorageDescriptor T) ++ "nba_player_data.jsonl") /\
    InputFormat (ti_StorageDescriptor T) = "org.apache.hadoop.mapred.TextInputFormat" /\
    OutputFormat (ti_StorageDescriptor T)
    = "org.apache.hadoop.hive.ql.io.HiveIgnoreKeyTextOutputFormat" /\
    SerializationLibrary (sd_SerdeInfo (ti_StorageDescriptor T))
    = "org.openx.data.jsonserde.JsonSerDe".
Proof.
  intros Hl Hany. exists nba_players_table.
  split; [|repeat split; try reflexivity].
  - unfold create_glue_table, bind, invoke, print, enter.
    cbn [calls stdout entered]. rewrite Hl, Hany. cbn [negb].
    destruct (glue_create_table w _ _ _) as [[]|e]; cbn [snd calls];
      now rewrite <- app_assoc.
  - intros data st0 b k body Hin Hnew.
    destruct (upload_to_s3_calls w data st0) as [E|[body' E]];
      rewrite E in Hin; [contradiction|].
    apply in_app_or in Hin as [Hin|[Hin|[]]]; [contradiction|].
    injection Hin as <- <- _. reflexivity.
Qed.

(** C9.  For every list of records that can be written, the body
    [upload_to_s3] puts is their texts joined by single line feeds: as many
    lines as records, in the order of the records, the i-th line being what
    [json.dumps] writes for the i-th record, no line feed inside a line and
    none at the end. *)
Theorem C9_body_preserves_records (st : state) (l : list pyval) (lines : list string) :
  float_tokens ->
  dumps_each l = Ok lines ->
  let body := String.concat newline lines in
  calls (snd (upload_to_s3 w (PyList l) st))
  = (calls st ++ [PutObject bucket_name file_key body])%list /\
  List.length lines = List.length l /\
  (forall i r, nth_error l i = Some r ->
               exists s, nth_error lines i = Some s /\ json_dumps r = Ok s) /\
  (l <> [] -> split_lines body = lines) /\
  (l = [] -> body = EmptyString) /\
  last_char body <> Some LF.
Proof.
  intros Hfloat Hlines body.
  destruct (dumps_each_nth l lines Hlines) as [Hlen Hnth].
  destruct (dumps_each_lines Hfloat l lines Hlines) as [Hone Hne].
  split; [now apply upload_to_s3_list|].
  split; [exact Hlen|]. split; [exact Hnth|].
  split; [|split].
  - intros Hl. apply split_lines_join; [|exact Hone].
    intros ->. destruct l; [congruence | discriminate].
  - intros ->. simpl in Hlines. injection Hlines as <-. reflexivity.
  - now apply join_no_trailing_newline.
Qed.

End Step_claims.

(** ** The whole run *)

Section Run_properties.
Context {FM : FloatModel}.
Variable w : World.

(** The state in which the first step starts. *)
Lemma banner_printed :
  print banner_start init
  = (Ok tt, {| calls := []; stdout := [banner_start]; entered := [] |}).
Proof. reflexivity. Qed.

(** The run, cut after the fetch: what follows is the guarded upload and
    then the catalog and query steps. *)
Lemma main_after_fetch :
  run (main w) =
  match run (up_to_fetch w) with
  | (Ok nba_data, st) =>
      ((if truthy nba_data then upload_to_s3 w nba_data else ret tt) ;;
       catalog_and_query w) st
  | (Raise e, st) => (Raise e, st)
  end.
Proof.
  unfold run, main, up_to_fetch, catalog_and_query, bind.
  rewrite banner_printed.
  destruct (create_s3_bucket w _) as [[[]|e] st1]; [|reflexivity].
  destruct (fetch_nba_data w st1) as [[v|e] st2]; reflexivity.
Qed.

(** The run, cut before the query step. *)
Lemma main_after_table :
  run (main w) =
  match run (up_to_table w) with
  | (Ok _, st) => (configure_athena w ;; print banner_done) st
  | (Raise e, st) => (Raise e, st)
  end.
Proof.
  unfold run, main, up_to_table, bind.
  rewrite banner_printed.
  destruct (create_s3_bucket w _) as [[[]|e] st1]; [|reflexivity].
  destruct (fetch_nba_data w st1) as [[v|e] st2]; [|reflexivity].
  destruct ((if truthy v then upload_to_s3 w v else ret tt) st2) as [[[]|e] st3];
    [|reflexivity].
  destruct (create_glue_database w st3) as [[[]|e] st4]; [|reflexivity].
  destruct (create_glue_table w st4) as [[[]|e] st5]; reflexivity.
Qed.

(** Up to the fetch, the bucket step is entered, and the fetch step after
    it unless the bucket step raised. *)
Lemma up_to_fetch_entered :
  entered (snd (run (up_to_fetch w))) = [Fcreate_s3_bucket] \/
  entered (snd (run (up_to_fetch w))) = [Fcreate_s3_bucket; Ffetch_nba_data].
Proof.
  unfold run, up_to_fetch, bind. rewrite banner_printed.
  match goal with |- context [create_s3_bucket w ?s] =>
    pose proof (create_s3_bucket_entered w s) as H1;
    destruct (create_s3_bucket w s) as [[[]|e] st1] end; simpl in H1.
  - right. pose proof (fetch_nba_data_entered w st1) as H2.
    destruct (fetch_nba_data w st1) as [[v|e] st2]; simpl in *; now rewrite H2, H1.
  - left. exact H1.
Qed.

Lemma up_to_fetch_returned (v : pyval) :
  fst (run (up_to_fetch w)) = Ok v ->
  entered (snd (run (up_to_fetch w))) = [Fcreate_s3_bucket; Ffetch_nba_data].
Proof.
  unfold run, up_to_fetch, bind. rewrite banner_printed.
  match goal with |- context [create_s3_bucket w ?s] =>
    pose proof (create_s3_bucket_entered w s) as H1;
    destruct (create_s3_bucket w s) as [[[]|e] st1] end; simpl in H1.
  - pose proof (fetch_nba_data_entered w st1) as H2.
    destruct (fetch_nba_data w st1) as [[v'|e] st2]; simpl in *; intros _;
      now rewrite H2, H1.
  - discriminate.
Qed.

(** The catalog and query steps are entered in order, each one unless the
    one before it raised. *)
Lemma catalog_and_query_entered (st : state) :
  entered (snd (catalog_and_query w st)) =
  (entered st ++
   Fcreate_glue_database ::
     match create_glue_database w st with
     | (Raise _, _) => []
     | (Ok _, st4) =>
         Fcreate_glue_table ::
           match create_glue_table w st4 with
           | (Raise _, _) => []
           | (Ok _, _) => [Fconfigure_athena]
           end
     end)%list.
Proof.
  unfold catalog_and_query, bind.
  pose proof (create_glue_database_entered w st) as H4.
  destruct (create_glue_database w st) as [[[]|e] st4]; simpl in H4; [|exact H4].
  pose proof (create_glue_table_entered w st4) as H5.
  destruct (create_glue_table w st4) as [[[]|e] st5]; simpl in H5.
  - pose proof (configure_athena_entered w st5) as H6.
    destruct (configure_athena w st5) as [[[]|e] st6]; simpl in *;
      rewrite H6, H5, H4, <- !app_assoc; reflexivity.
  - simpl. rewrite H5, H4, <- app_assoc. reflexivity.
Qed.

Lemma catalog_and_query_skips_upload (st : state) :
  ~ In Fupload_to_s3 (entered st) ->
  ~ In Fupload_to_s3 (entered (snd (catalog_and_query w st))).
Proof.
  intros Hst. rewrite catalog_and_query_entered. intros Hin.
  apply in_app_or in Hin as [Hin|Hin]; [contradiction|].
  destruct (create_glue_database w st) as [[[]|e] st4];
    [destruct (create_glue_table w st4) as [[[]|e'] st5]|];
    simpl in Hin; intuition discriminate.
Qed.

(** Only the upload step puts an object. *)
Lemma create_s3_bucket_puts_nothing (st : state) :
  existsb is_PutObject (calls (snd (create_s3_bucket w st)))
  = existsb is_PutObject (calls st).
Proof.
  rewrite create_s3_bucket_calls, existsb_app. apply orb_false_r.
Qed.

Lemma fetch_nba_data_puts_nothing (st : state) :
  existsb is_PutObject (calls (snd (fetch_nba_data w st)))
  = existsb is_PutObject (calls st).
Proof.
  unfold fetch_nba_data, try_except, bind, invoke, print, enter, lift, ret.
  cbn [calls stdout entered].
  destruct (http_get w (calls st) _ _) as [r|e]; cbn [calls snd].
  - destruct (raise_for_status r) as [[]|e]; cbn [calls snd].
    + destruct (json r) as [v|e]; [|destruct (is_RequestException e)];
        cbn [calls snd]; rewrite existsb_app; apply orb_false_r.
    + destruct (is_RequestException e); cbn [calls snd];
        rewrite existsb_app; apply orb_false_r.
  - destruct (is_RequestException e); cbn [calls snd];
      rewrite existsb_app; apply orb_false_r.
Qed.

Lemma create_glue_database_puts_nothing (st : state) :
  existsb is_PutObject (calls (snd (create_glue_database w st)))
  = existsb is_PutObject (calls st).
Proof.
  unfold create_glue_database, bind, invoke, print, enter.
  cbn [calls stdout entered].
  destruct (glue_get_databases w (calls st)) as [l|e]; cbn [calls snd].
  - destruct (any_named database_name l); cbn [negb calls snd].
    + rewrite existsb_app; apply orb_false_r.
    + destruct (glue_create_database w _ _) as [[]|e]; cbn [calls snd];
        rewrite !existsb_app; cbn [existsb is_PutObject]; now rewrite !orb_false_r.
  - rewrite existsb_app; apply orb_false_r.
Qed.

Lemma create_glue_table_puts_nothing (st : state) :
  existsb is_PutObject (calls (snd (create_glue_table w st)))
  = existsb is_PutObject (calls st).
Proof.
  unfold create_glue_table, bind, invoke, print, enter.
  cbn [calls stdout entered].
  destruct (glue_get_tables w (calls st) database_name) as [l|e]; cbn [calls snd].
  - destruct (any_named table_name l); cbn [negb calls snd].
    + rewrite existsb_app; apply orb_false_r.
    + destruct (glue_create_table w _ _ _) as [[]|e]; cbn [calls snd];
        rewrite !existsb_app; cbn [existsb is_PutObject]; now rewrite !orb_false_r.
  - rewrite existsb_app; apply orb_false_r.
Qed.

Lemma configure_athena_puts_nothing (st : state) :
  existsb is_PutObject (calls (snd (configure_athena w st)))
  = existsb is_PutObject (calls st).
Proof.
  unfold configure_athena, try_except, bind, invoke, print, enter.
  cbn [calls stdout entered].
  destruct (athena_start_query_execution w (calls st) _ _ _) as [[]|e];
    [|destruct (is_ClientError e)]; cbn [calls snd];
    rewrite existsb_app; apply orb_false_r.
Qed.

Lemma catalog_and_query_puts_nothing (st : state) :
  existsb is_PutObject (calls (snd (catalog_and_query w st)))
  = existsb is_PutObject (calls st).
Proof.
  unfold catalog_and_query, bind.
  pose proof (create_glue_database_puts_nothing st) as H4.
  destruct (create_glue_database w st) as [[[]|e] st4]; simpl in H4; [|exact H4].
  pose proof (create_glue_table_puts_nothing st4) as H5.
  destruct (create_glue_table w st4) as [[[]|e] st5]; simpl in H5;
    [|simpl; congruence].
  pose proof (configure_athena_puts_nothing st5) as H6.
  destruct (configure_athena w st5) as [[[]|e] st6]; simpl in *; congruence.
Qed.

Lemma up_to_fetch_puts_nothing :
  existsb is_PutObject (calls (snd (run (up_to_fetch w)))) = false.
Proof.
  unfold run, up_to_fetch, bind. rewrite banner_printed.
  match goal with |- context [create_s3_bucket w ?s] =>
    pose proof (create_s3_bucket_puts_nothing s) as H1;
    destruct (create_s3_bucket w s) as [[[]|e] st1] end; simpl in H1; [|exact H1].
  pose proof (fetch_nba_data_puts_nothing st1) as H2.
  destruct (fetch_nba_data w st1) as [[v|e] st2]; simpl in *; congruence.
Qed.

End Run_properties.

Section Run_claims.
Context {FM : FloatModel}.
Variable w : World.

(** C3, as the code has it.  The fetch step returns [None] when the GET
    raises a requests exception (a transport failure) and when the status
    is from 400 to 599; and the upload step is entered exactly when the
    fetch returned a value that is true for [if nba_data:].  When the fetch
    returned a list, that is exactly when the list is not empty; when it
    returned [None], the upload step is not entered. *)
Theorem C3_fetch_and_upload_guard :
  (forall st cls text,
     http_get w (calls st) (NBA_ENDPOINT_env w)
       [("Ocp-Apim-Subscription-Key", SPORTS_DATA_API_KEY w)]
     = Raise (RequestException cls text) ->
     fst (fetch_nba_data w st) = Ok PyNone) /\
  (forall st r,
     http_get w (calls st) (NBA_ENDPOINT_env w)
       [("Ocp-Apim-Subscription-Key", SPORTS_DATA_API_KEY w)]
     = Ok r ->
     (400 <= status_code r < 600)%Z ->
     fst (fetch_nba_data w st) = Ok PyNone) /\
  (In Fupload_to_s3 (entered (snd (run (main w)))) <->
   exists v, fst (run (up_to_fetch w)) = Ok v /\ truthy v = true) /\
  (forall l, fst (run (up_to_fetch w)) = Ok (PyList l) ->
             (In Fupload_to_s3 (entered (snd (run (main w)))) <-> l <> [])) /\
  (fst (run (up_to_fetch w)) = Ok PyNone ->
   ~ In Fupload_to_s3 (entered (snd (run (main w))))).
Proof.
  assert (Hguard : In Fupload_to_s3 (entered (snd (run (main w)))) <->
                   exists v, fst (run (up_to_fetch w)) = Ok v /\ truthy v = true).
  { rewrite main_after_fetch.
    pose proof (up_to_fetch_entered w) as Hany.
    pose proof (up_to_fetch_returned w) as Hret.
    destruct (run (up_to_fetch w)) as [[v|e] st2]; cbn [fst snd] in *.
    - specialize (Hret v eq_refl). clear Hany.
      destruct (truthy v) eqn:Ht.
      + split; [intros _; now exists v|]. intros _.
        unfold bind.
        pose proof (upload_to_s3_entered w v st2) as Hu.
        destruct (upload_to_s3 w v st2) as [[[]|e] st3]; cbn [snd] in *.
        * rewrite catalog_and_query_entered, Hu, Hret. cbn. auto.
        * rewrite Hu, Hret. cbn. auto.
      + split.
        * intros Hin. exfalso. revert Hin.
          unfold bind, ret. apply catalog_and_query_skips_upload.
          rewrite Hret. cbn. intuition discriminate.
        * intros [v' [E Ht']]. injection E as <-. congruence.
    - split.
      + intros Hin. exfalso.
        destruct Hany as [E|E]; rewrite E in Hin; cbn in Hin; intuition discriminate.
      + intros [v' [E _]]. discriminate. }
  split; [|split; [|split; [exact Hguard|split]]].
  - intros st cls text H.
    unfold fetch_nba_data, try_except, bind, invoke, print, enter, lift, ret.
    cbn [calls stdout entered]. now rewrite H.
  - intros st r H Hstatus.
    unfold fetch_nba_data, try_except, bind, invoke, print, enter, lift, ret.
    cbn [calls stdout entered]. rewrite H. unfold raise_for_status.
    destruct (Z.ltb_spec (status_code r) 500).
    + replace (400 <=? status_code r)%Z with true by (symmetry; apply Z.leb_le; lia).
      reflexivity.
    + replace (status_code r <? 500)%Z with false by (symmetry; apply Z.ltb_ge; lia).
      rewrite andb_false_r.
      replace (500 <=? status_code r)%Z with true by (symmetry; apply Z.leb_le; lia).
      replace (status_code r <? 600)%Z with true by (symmetry; apply Z.ltb_lt; lia).
      reflexivity.
  - intros l Hl. rewrite Hguard. split.
    + intros [v [E Ht]] ->. rewrite Hl in E. injection E as <-. discriminate.
    + intros Hne. exists (PyList l). split; [exact Hl|].
      destruct l; [congruence | reflexivity].
  - intros Hnone. rewrite Hguard. intros [v [E Ht]].
    rewrite Hnone in E. injection E as <-. discriminate.
Qed.

(** C8, as the code has it.  When the fetch step returned [None] (after a
    failure) or an empty list, the upload step is skipped and no object is
    put; the run goes on with the database step; the table step is entered
    after it when the database step returned, and the query step after
    that when the table step returned.  The fetched data plays no part in
    which of these steps run. *)
Theorem C8_steps_after_fetch_without_data :
  fst (run (up_to_fetch w)) = Ok PyNone \/ fst (run (up_to_fetch w)) = Ok (PyList []) ->
  run (main w) = catalog_and_query w (snd (run (up_to_fetch w))) /\
  ~ In Fupload_to_s3 (entered (snd (run (main w)))) /\
  existsb is_PutObject (calls (snd (run (main w)))) = false /\
  entered (snd (run (main w))) =
  Fcreate_s3_bucket :: Ffetch_nba_data :: Fcreate_glue_database ::
    match create_glue_database w (snd (run (up_to_fetch w))) with
    | (Raise _, _) => []
    | (Ok _, st4) =>
        Fcreate_glue_table ::
          match create_glue_table w st4 with
          | (Raise _, _) => []
          | (Ok _, _) => [Fconfigure_athena]
          end
    end.
Proof.
  intros Hdata.
  assert (Hmain : run (main w) = catalog_and_query w (snd (run (up_to_fetch w)))).
  { rewrite main_after_fetch.
    destruct (run (up_to_fetch w)) as [[v|e] st2]; cbn [fst snd] in *.
    - destruct Hdata as [E|E]; injection E as ->; reflexivity.
    - destruct Hdata; discriminate. }
  assert (Hent : entered (snd (run (up_to_fetch w))) = [Fcreate_s3_bucket; Ffetch_nba_data]).
  { destruct Hdata as [E|E]; exact (up_to_fetch_returned w _ E). }
  rewrite Hmain. split; [reflexivity|]. split; [|split].
  - apply catalog_and_query_skips_upload. rewrite Hent. cbn. intuition discriminate.
  - rewrite catalog_and_query_puts_nothing. apply up_to_fetch_puts_nothing.
  - rewrite catalog_and_query_entered, Hent. reflexivity.
Qed.

(** C10.  An exception that is not a [ClientError] is not caught by the
    bucket, upload and query steps: raised by [create_bucket], by the
    iteration over the data, by [json.dumps] on a record, by [put_object] or
    by [start_query_execution], it leaves the step; and in the run it ends
    the script there, with nothing entered or printed after the step. *)
Theorem C10_only_ClientError_is_caught (e : exn) :
  is_ClientError e = false ->
  (forall st, s3_create_bucket w (calls st) bucket_name = Raise e ->
              fst (create_s3_bucket w st) = Raise e) /\
  (forall st data, py_iter data = Raise e ->
                   fst (upload_to_s3 w data st) = Raise e) /\
  (forall st data records,
     py_iter data = Ok records -> dumps_each records = Raise e ->
     fst (upload_to_s3 w data st) = Raise e) /\
  (forall st data records lines,
     py_iter data = Ok records -> dumps_each records = Ok lines ->
     s3_put_object w (calls st) bucket_name file_key (String.concat newline lines) = Raise e ->
     fst (upload_to_s3 w data st) = Raise e) /\
  (forall st,
     athena_start_query_execution w (calls st) "SELECT 1" database_name s3_output_location
     = Raise e ->
     fst (configure_athena w st) = Raise e) /\
  (s3_create_bucket w [] bucket_name = Raise e ->
   fst (run (main w)) = Raise e /\
   entered (snd (run (main w))) = [Fcreate_s3_bucket]) /\
  (forall v st2,
     run (up_to_fetch w) = (Ok v, st2) -> truthy v = true ->
     fst (upload_to_s3 w v st2) = Raise e ->
     fst (run (main w)) = Raise e /\
     entered (snd (run (main w))) = [Fcreate_s3_bucket; Ffetch_nba_data; Fupload_to_s3]) /\
  (forall st5,
     run (up_to_table w) = (Ok tt, st5) ->
     athena_start_query_execution w (calls st5) "SELECT 1" database_name s3_output_location
     = Raise e ->
     fst (run (main w)) = Raise e /\
     entered (snd (run (main w))) = (entered st5 ++ [Fconfigure_athena])%list /\
     stdout (snd (run (main w))) = stdout st5).
Proof.
  intros He. repeat apply conj.
  - intros st H.
    unfold create_s3_bucket, try_except, bind, invoke, print, enter.
    cbn [calls stdout entered]. now rewrite H, He.
  - intros st data H.
    unfold upload_to_s3, try_except, bind, invoke, print, enter, lift.
    cbn [calls stdout entered]. now rewrite H, He.
  - intros st data records Hiter H.
    unfold upload_to_s3, try_except, bind, invoke, print, enter, lift.
    cbn [calls stdout entered]. now rewrite Hiter, H, He.
  - intros st data records lines Hiter Hlines H.
    unfold upload_to_s3, try_except, bind, invoke, print, enter, lift.
    cbn [calls stdout entered]. now rewrite Hiter, Hlines, H, He.
  - intros st H.
    unfold configure_athena, try_except, bind, invoke, print, enter.
    cbn [calls stdout entered]. now rewrite H, He.
  - intros H.
    unfold run, main, bind. rewrite banner_printed.
    unfold create_s3_bucket, try_except, bind, invoke, print, enter.
    cbn [calls stdout entered]. now rewrite H, He.
  - intros v st2 Hrun Ht H.
    rewrite main_after_fetch.
    pose proof (up_to_fetch_returned w v) as Hent.
    rewrite Hrun in *. cbn [fst snd] in Hent. rewrite Ht. unfold bind.
    pose proof (upload_to_s3_entered w v st2) as Hu.
    destruct (upload_to_s3 w v st2) as [[[]|e'] st3]; cbn [fst snd] in *;
      [discriminate|].
    split; [exact H|]. now rewrite Hu, Hent.
  - intros st5 Hrun H.
    rewrite main_after_table, Hrun.
    unfold configure_athena, try_except, bind, invoke, print, enter.
    cbn [calls stdout entered]. rewrite H, He. repeat split.
Qed.

End Run_claims.

(** ** The script on the scenarios *)

Section Runs.
#[local] Existing Instance sample_floats.

Lemma sample_float_tokens : @float_tokens sample_floats.
Proof.
  intros []; (split; [reflexivity | discriminate]).
Qed.

(** C1.  A [ClientError] raised in the database step or in the table step
    is caught by nothing: when the catalog refuses [get_databases], the
    error leaves [create_glue_database] and ends the run before the table
    and query steps; when it refuses [get_tables], the error leaves
    [create_glue_table] and ends the run before the query step. *)
Theorem C1_catalog_errors_end_the_run :
  is_ClientError access_denied = true /\
  fst (create_glue_database world_glue_denied init) = Raise access_denied /\
  fst (run (main world_glue_denied)) = Raise access_denied /\
  entered (snd (run (main world_glue_denied)))
  = [Fcreate_s3_bucket; Ffetch_nba_data; Fupload_to_s3; Fcreate_glue_database] /\
  fst (create_glue_table world_tables_denied init) = Raise access_denied /\
  fst (run (main world_tables_denied)) = Raise access_denied /\
  entered (snd (run (main world_tables_denied)))
  = [Fcreate_s3_bucket; Ffetch_nba_data; Fupload_to_s3; Fcreate_glue_database;
     Fcreate_glue_table].
Proof.
  repeat split; vm_compute; reflexivity.
Qed.

(** C2.  The exit status tells a run in which the catalog answered with a
    [ClientError] from a run in which every step worked: 1 for the first,
    0 for the second. *)
Theorem C2_exit_status_after_catalog_error :
  exit_status (fst (run (main world_fine))) = 0%Z /\
  exit_status (fst (run (main world_glue_denied))) = 1%Z /\
  exit_status (fst (run (main world_tables_denied))) = 1%Z.
Proof.
  repeat split; vm_compute; reflexivity.
Qed.

(** C3 does not hold as stated.  With the status 300, which is not a 2xx
    status, and a JSON array as body, the fetch step returns the array;
    and with the body [true] the upload step is entered although the fetch
    returned no list of records. *)
Lemma C3_counterexample :
  (exists r,
     http_get world_status_300 (calls init) (NBA_ENDPOINT_env world_status_300)
       [("Ocp-Apim-Subscription-Key", SPORTS_DATA_API_KEY world_status_300)]
     = Ok r /\
     ~ (200 <= status_code r < 300)%Z /\
     fst (fetch_nba_data world_status_300 init) = Ok (PyList [player_A])) /\
  ~ (In Fupload_to_s3 (entered (snd (run (main world_body_true)))) <->
     exists l, fst (run (up_to_fetch world_body_true)) = Ok (PyList l) /\ l <> []).
Proof.
  split.
  - eexists. split; [reflexivity|]. split; [cbn; lia | reflexivity].
  - intros [Hin _].
    destruct Hin as [l [E _]]; [|discriminate E].
    vm_compute. auto.
Qed.

Lemma C3_fetch_and_upload_guard_witness :
  In Fupload_to_s3 (entered (snd (run (main world_fine)))) /\
  ~ In Fupload_to_s3 (entered (snd (run (main world_api_down)))).
Proof.
  split.
  - destruct (C3_fetch_and_upload_guard world_fine) as (_ & _ & H & _).
    apply H. exists (PyList [player_A]). split; reflexivity.
  - destruct (C3_fetch_and_upload_guard world_api_down) as (_ & _ & _ & _ & H).
    apply H. reflexivity.
Defined.

Lemma C5_bucket_creation_twice_witness :
  exists st,
    (create_s3_bucket world_fine ;; create_s3_bucket world_fine) init = (Ok tt, st) /\
    calls st = [CreateBucket bucket_name; CreateBucket bucket_name].
Proof.
  eexists. split.
  - apply (C5_bucket_creation_twice world_fine init
             "An error occurred (BucketAlreadyOwnedByYou) when calling the CreateBucket operation");
      reflexivity.
  - reflexivity.
Defined.

(** A database whose name differs from [database_name] by case only does
    not stand for it: the database is created. *)
Lemma C6_create_iff_name_absent_witness :
  calls (snd (create_glue_database world_upper_case init))
  = [GetDatabases;
     CreateDatabase {| di_Name := database_name; di_Description := "NBA Data Lake" |}].
Proof.
  destruct (C6_create_iff_name_absent world_upper_case init) as [Hdb _].
  destruct (Hdb [ {| entry_Name := "GLUE_NBA_DATA_LAKE" |} ] eq_refl)
    as (issued & Hcalls & _ & Hcreate).
  rewrite Hcalls, Hcreate; [reflexivity|].
  intros x [<-|[]]. discriminate.
Defined.

Lemma C7_created_table_witness :
  exists T,
    calls (snd (create_glue_table world_fine init))
    = [GetTables database_name; CreateTable database_name T] /\
    TableType T = "EXTERNAL_TABLE" /\
    Location (ti_StorageDescriptor T)
    = "s3://sports-analytics-data-lake-osagie123/raw-data/".
Proof.
  destruct (C7_created_table world_fine init [] eq_refl eq_refl)
    as (T & Hcalls & _ & Htype & _ & Hloc & _).
  exists T. repeat split; assumption.
Defined.

(** C8 does not hold as stated.  The API cannot be reached, the fetch
    returns [None] and the upload is skipped; the catalog endpoint cannot
    be reached either, [get_databases] raises an error that is no
    [ClientError], and the run ends in the database step: the table step
    and the query step are not attempted. *)
Lemma C8_counterexample :
  fst (run (up_to_fetch world_offline)) = Ok PyNone /\
  fst (run (main world_offline)) = Raise endpoint_unreachable /\
  entered (snd (run (main world_offline)))
  = [Fcreate_s3_bucket; Ffetch_nba_data; Fcreate_glue_database] /\
  ~ In Fcreate_glue_table (entered (snd (run (main world_offline)))) /\
  ~ In Fconfigure_athena (entered (snd (run (main world_offline)))).
Proof.
  repeat split; try (vm_compute; reflexivity);
    vm_compute; intuition discriminate.
Qed.

Lemma C8_steps_after_fetch_without_data_witness :
  entered (snd (run (main world_api_down)))
  = [Fcreate_s3_bucket; Ffetch_nba_data; Fcreate_glue_database;
     Fcreate_glue_table; Fconfigure_athena] /\
  entered (snd (run (main world_no_players)))
  = [Fcreate_s3_bucket; Ffetch_nba_data; Fcreate_glue_database;
     Fcreate_glue_table; Fconfigure_athena].
Proof.
  split.
  - destruct (C8_steps_after_fetch_without_data world_api_down (or_introl eq_refl))
      as (_ & _ & _ & H).
    rewrite H. reflexivity.
  - destruct (C8_steps_after_fetch_without_data world_no_players (or_intror eq_refl))
      as (_ & _ & _ & H).
    rewrite H. reflexivity.
Defined.

Lemma C9_body_preserves_records_witness :
  split_lines
    (String.concat newline
       [player_A_json; "[0.5, " ++ quoted (esc "n") ++ "]"; "null"])
  = [player_A_json; "[0.5, " ++ quoted (esc "n") ++ "]"; "null"].
Proof.
  destruct (C9_body_preserves_records world_fine init
              [player_A; PyList [@PyFloat sample_floats F_half; PyStr [10%N]]; PyNone]
              [player_A_json; "[0.5, " ++ quoted (esc "n") ++ "]"; "null"]
              sample_float_tokens eq_refl)
    as (_ & _ & _ & H & _).
  apply H. discriminate.
Defined.

(** A record that [json.dumps] cannot write ends the upload step with a
    [TypeError]. *)
Lemma C10_only_ClientError_is_caught_witness :
  fst (upload_to_s3 world_fine (PyList [player_A; PyObject "datetime"]) init)
  = Raise (TypeError "Object of type datetime is not JSON serializable") /\
  fst (run (main world_athena_unreachable)) = Raise endpoint_unreachable.
Proof.
  split.
  - destruct (C10_only_ClientError_is_caught world_fine
                (TypeError "Object of type datetime is not JSON serializable") eq_refl)
      as (_ & _ & H & _).
    apply (H init (PyList [player_A; PyObject "datetime"]) [player_A; PyObject "datetime"]);
      reflexivity.
  - destruct (C10_only_ClientError_is_caught world_athena_unreachable
                endpoint_unreachable eq_refl)
      as (_ & _ & _ & _ & _ & _ & _ & H).
    assert (Hrun : run (up_to_table world_athena_unreachable)
                   = (Ok tt, snd (run (up_to_table world_athena_unreachable))))
      by (vm_compute; reflexivity).
    assert (Hquery : athena_start_query_execution world_athena_unreachable
                       (calls (snd (run (up_to_table world_athena_unreachable))))
                       "SELECT 1" database_name s3_output_location
                     = Raise endpoint_unreachable)
      by (vm_compute; reflexivity).
    exact (proj1 (H _ Hrun Hquery)).
Defined.

End Runs.

(** * Further properties of the steps *)

Section Fetch_properties.
Context {FM : FloatModel}.
Variable w : World.

Lemma fetch_nba_data_calls (st : state) :
  calls (snd (fetch_nba_data w st))
  = (calls st ++ [HttpGet (NBA_ENDPOINT_env w)
                    [("Ocp-Apim-Subscription-Key", SPORTS_DATA_API_KEY w)]])%list.
Proof.
  unfold fetch_nba_data, try_except, bind, invoke, print, enter, lift, ret.
  cbn [calls stdout entered].
  destruct (http_get w (calls st) _ _) as [r|e]; cbn [calls snd].
  - destruct (raise_for_status r) as [[]|e]; cbn [calls snd].
    + destruct (json r) as [v|e]; [|destruct (is_RequestException e)]; reflexivity.
    + destruct (is_RequestException e); reflexivity.
  - destruct (is_RequestException e); reflexivity.
Qed.

(** X1.  Whatever happens, the fetch step makes exactly one GET, to the
    configured endpoint and with the API key in the
    [Ocp-Apim-Subscription-Key] header: a failure is never followed by a
    second attempt. *)
Theorem fetch_nba_data_single_request (st : state) :
  calls (snd (fetch_nba_data w st))
  = (calls st ++ [HttpGet (NBA_ENDPOINT_env w)
                    [("Ocp-Apim-Subscription-Key", SPORTS_DATA_API_KEY w)]])%list.
Proof. exact (fetch_nba_data_calls st). Qed.

Lemma raise_for_status_passes (r : Response) :
  ~ (400 <= status_code r < 600)%Z -> raise_for_status r = Ok tt.
Proof.
  intros H. unfold raise_for_status.
  destruct (Z.leb_spec 400 (status_code r)); cbn [andb]; [|].
  - destruct (Z.ltb_spec (status_code r) 500); cbn [andb]; [lia|].
    destruct (Z.leb_spec 500 (status_code r)); cbn [andb]; [|lia].
    destruct (Z.ltb_spec (status_code r) 600); [lia | reflexivity].
  - destruct (Z.leb_spec 500 (status_code r)); cbn [andb]; [lia | reflexivity].
Qed.

Lemma raise_for_status_raises (r : Response) (e : exn) :
  raise_for_status r = Raise e -> is_RequestException e = true.
Proof.
  unfold raise_for_status.
  destruct ((400 <=? status_code r) && (status_code r <? 500))%Z;
    [intros H; injection H as <-; reflexivity|].
  destruct ((500 <=? status_code r) && (status_code r <? 600))%Z;
    [intros H; injection H as <-; reflexivity | discriminate].
Qed.

(** X2.  When the response has a status outside 400..599 and its body
    decodes, the fetch step returns the decoded body as it is and prints
    the success line only. *)
Theorem fetch_nba_data_success (st : state) (r : Response) (v : pyval) :
  http_get w (calls st) (NBA_ENDPOINT_env w)
    [("Ocp-Apim-Subscription-Key", SPORTS_DATA_API_KEY w)] = Ok r ->
  ~ (400 <= status_code r < 600)%Z ->
  json r = Ok v ->
  fst (fetch_nba_data w st) = Ok v /\
  stdout (snd (fetch_nba_data w st))
  = (stdout st ++ ["Fetched NBA data successfully."])%list.
Proof.
  intros Hget Hstatus Hjson.
  unfold fetch_nba_data, try_except, bind, invoke, print, enter, lift, ret.
  cbn [calls stdout entered].
  rewrite Hget, (raise_for_status_passes r Hstatus), Hjson. split; reflexivity.
Qed.

(** X3.  The fetch step never raises a requests exception: what it raises
    is an exception of another class, raised by the GET or by the decoding
    of the body. *)
Theorem fetch_nba_data_raises_only_foreign (st : state) (e : exn) :
  fst (fetch_nba_data w st) = Raise e ->
  is_RequestException e = false /\
  (http_get w (calls st) (NBA_ENDPOINT_env w)
     [("Ocp-Apim-Subscription-Key", SPORTS_DATA_API_KEY w)] = Raise e \/
   exists r,
     http_get w (calls st) (NBA_ENDPOINT_env w)
       [("Ocp-Apim-Subscription-Key", SPORTS_DATA_API_KEY w)] = Ok r /\
     json r = Raise e).
Proof.
  unfold fetch_nba_data, try_except, bind, invoke, print, enter, lift, ret.
  cbn [calls stdout entered].
  destruct (http_get w (calls st) _ _) as [r|e0]; cbn [fst].
  - destruct (raise_for_status r) as [[]|e1] eqn:Hs; cbn [fst].
    + destruct (json r) as [v|e2] eqn:Hj; cbn [fst]; [discriminate|].
      destruct (is_RequestException e2) eqn:He; cbn [fst]; [discriminate|].
      intros H. injection H as <-. split; [exact He|]. right. now exists r.
    + rewrite (raise_for_status_raises r e1 Hs). discriminate.
  - destruct (is_RequestException e0) eqn:He; cbn [fst]; [discriminate|].
    intros H. injection H as <-. split; [exact He|]. now left.
Qed.

(** X4.  The success line is printed before the body is decoded: when the
    status passes and the decoding raises a requests exception, the step
    prints the success line, then the error line, and returns [None]. *)
Theorem fetch_nba_data_undecodable_body (st : state) (r : Response) (cls text : string) :
  http_get w (calls st) (NBA_ENDPOINT_env w)
    [("Ocp-Apim-Subscription-Key", SPORTS_DATA_API_KEY w)] = Ok r ->
  ~ (400 <= status_code r < 600)%Z ->
  json r = Raise (RequestException cls text) ->
  fst (fetch_nba_data w st) = Ok PyNone /\
  stdout (snd (fetch_nba_data w st))
  = (stdout st ++ ["Fetched NBA data successfully.";
                   ("Error fetching NBA data: " ++ text)%string])%list.
Proof.
  intros Hget Hstatus Hjson.
  unfold fetch_nba_data, try_except, bind, invoke, print, enter, lift, ret.
  cbn [calls stdout entered].
  rewrite Hget, (raise_for_status_passes r Hstatus), Hjson.
  cbn [is_RequestException fst snd stdout exn_str].
  split; [reflexivity|]. now rewrite <- app_assoc.
Qed.

End Fetch_properties.

Section Bucket_properties.
Context {FM : FloatModel}.
Variable w : World.

(** X5.  Whatever [ClientError] the create call raises, the bucket step
    returns and prints one line: the line saying that the bucket exists
    when the code is exactly [BucketAlreadyOwnedByYou], and the error line
    with the text of the error for any other code. *)
Theorem create_s3_bucket_on_ClientError (st : state) (code text : string) :
  s3_create_bucket w (calls st) bucket_name = Raise (ClientError code text) ->
  fst (create_s3_bucket w st) = Ok tt /\
  calls (snd (create_s3_bucket w st)) = (calls st ++ [CreateBucket bucket_name])%list /\
  (code = "BucketAlreadyOwnedByYou" ->
   stdout (snd (create_s3_bucket w st))
   = (stdout st
      ++ [("S3 bucket '" ++ bucket_name ++ "' already exists. Skipping creation.")%string])%list) /\
  (code <> "BucketAlreadyOwnedByYou" ->
   stdout (snd (create_s3_bucket w st))
   = (stdout st ++ [("Error creating S3 bucket: " ++ text)%string])%list).
Proof.
  intros H.
  unfold create_s3_bucket, try_except, bind, invoke, print, enter.
  cbn [calls stdout entered]. rewrite H.
  cbn [is_ClientError response_Error_Code exn_str].
  destruct (String.eqb_spec code "BucketAlreadyOwnedByYou") as [E|E];
    cbn [fst snd calls stdout]; repeat split; try reflexivity; intros; congruence.
Qed.

End Bucket_properties.

Section Serialization_properties.
Context {FM : FloatModel}.

Lemma py_iter_raises_TypeError (v : pyval) (e : exn) :
  py_iter v = Raise e -> exists t, e = TypeError t.
Proof.
  destruct v; cbn [py_iter]; intros H; try discriminate;
    injection H as <-; eexists; reflexivity.
Qed.

Lemma dumps_each_app_cases (l : list pyval) :
  (exists lines, dumps_each l = Ok lines /\ Forall2 (fun r s => json_dumps r = Ok s) l lines) \/
  (exists e x, dumps_each l = Raise e /\ In x l /\ json_dumps x = Raise e).
Proof.
  induction l as [|x r IH]; cbn [dumps_each].
  - left. exists []. split; [reflexivity | constructor].
  - destruct (json_dumps x) as [s|e] eqn:Hx.
    + destruct IH as [(lines & -> & Hall)|(e & y & -> & Hy & He)].
      * left. exists (s :: lines). split; [reflexivity | now constructor].
      * right. exists e, y. split; [reflexivity|]. split; [now right | exact He].
    + right. exists e, x. split; [reflexivity|]. split; [now left | exact Hx].
Qed.

Lemma json_dumps_cases (v : pyval) :
  ((exists s, json_dumps v = Ok s) <-> is_json v = true) /\
  (forall e, json_dumps v = Raise e -> exists t, e = TypeError t).
Proof.
  induction v as [ | b | z | f | p | l IHl | d IHd | c ] using pyval_nested_ind.
  - split; [split; [reflexivity | now exists "null"] | discriminate].
  - split; [split; [reflexivity | destruct b; eexists; reflexivity]
           | destruct b; discriminate].
  - split; [split; [reflexivity | eexists; reflexivity] | discriminate].
  - split; [split; [reflexivity | eexists; reflexivity] | discriminate].
  - split; [split; [reflexivity | eexists; reflexivity] | discriminate].
  - rewrite json_dumps_list. cbn [is_json].
    assert (Hl : (exists lines, dumps_each l = Ok lines) <-> forallb is_json l = true).
    { induction IHl as [|x r [Hx _] _ IH]; cbn [dumps_each forallb].
      - split; [reflexivity | now exists []].
      - rewrite andb_true_iff, <- Hx, <- IH. split.
        + intros [lines H].
          destruct (json_dumps x) as [s|]; [|discriminate].
          destruct (dumps_each r) as [ss|]; [|discriminate].
          split; eexists; reflexivity.
        + intros [[s ->] [ss ->]]. eexists; reflexivity. }
    assert (He : forall e, dumps_each l = Raise e -> exists t, e = TypeError t).
    { intros e H. destruct (dumps_each_app_cases l) as [(lines & E & _)|(e' & x & E & Hx & Hr)];
        [congruence|].
      rewrite Forall_forall in IHl. rewrite E in H. injection H as <-.
      exact (proj2 (IHl x Hx) e' Hr). }
    split.
    + rewrite <- Hl. split.
      * intros [s H]. destruct (dumps_each l) as [ss|]; [now exists ss | discriminate].
      * intros [ss ->]. eexists; reflexivity.
    + intros e H. destruct (dumps_each l) as [ss|e'] eqn:E; [discriminate|].
      injection H as <-. now apply He.
  - rewrite json_dumps_dict. cbn [is_json].
    assert (Hd : ((exists lines, dumps_members d = Ok lines)
                  <-> forallb (fun kv => is_json (snd kv)) d = true) /\
                 (forall e, dumps_members d = Raise e -> exists t, e = TypeError t)).
    { induction IHd as [|[k x] r [Hx Hxe] _ [IH IHe]]; cbn [dumps_members forallb snd] in *.
      - split; [split; [reflexivity | now exists []] | discriminate].
      - split.
        + rewrite andb_true_iff, <- Hx, <- IH. split.
          * intros [lines H].
            destruct (json_dumps x) as [s|]; [|discriminate].
            destruct (dumps_members r) as [ss|]; [|discriminate].
            split; eexists; reflexivity.
          * intros [[s ->] [ss ->]]. eexists; reflexivity.
        + intros e H.
          destruct (json_dumps x) as [s|e1]; [|injection H as <-; now apply Hxe].
          destruct (dumps_members r) as [ss|e2]; [discriminate|].
          injection H as <-. now apply IHe. }
    destruct Hd as [Hd He]. split.
    + rewrite <- Hd. split.
      * intros [s H]. destruct (dumps_members d) as [ss|]; [now exists ss | discriminate].
      * intros [ss ->]. eexists; reflexivity.
    + intros e H. destruct (dumps_members d) as [ss|e'] eqn:E; [discriminate|].
      injection H as <-. now apply He.
  - split; [split; [intros [s H]; discriminate | discriminate]|].
    intros e H. injection H as <-. eexists; reflexivity.
Qed.

Lemma dumps_each_raises_TypeError (l : list pyval) (e : exn) :
  dumps_each l = Raise e -> exists t, e = TypeError t.
Proof.
  intros H.
  destruct (dumps_each_app_cases l) as [(lines & E & _)|(e' & x & E & _ & Hr)];
    [congruence|].
  rewrite E in H. injection H as <-.
  exact (proj2 (json_dumps_cases x) e' Hr).
Qed.

Lemma dumps_each_json (l : list pyval) :
  forallb is_json l = true -> exists lines, dumps_each l = Ok lines.
Proof.
  induction l as [|x r IH]; cbn [forallb dumps_each]; intros H.
  - now exists [].
  - apply andb_true_iff in H as [Hx Hr].
    apply (proj1 (json_dumps_cases x)) in Hx as [s ->].
    destruct (IH Hr) as [ss ->]. eexists; reflexivity.
Qed.

Lemma dumps_each_strs (ss : list pystr) :
  dumps_each (map PyStr ss) = Ok (map encode_basestring_ascii ss).
Proof.
  induction ss as [|s r IH]; cbn [map dumps_each json_dumps]; [reflexivity|].
  now rewrite IH.
Qed.


End Serialization_properties.

Section Upload_properties.
Context {FM : FloatModel}.
Variable w : World.

Lemma upload_to_s3_put (data : pyval) (records : list pyval) (lines : list string)
      (st : state) :
  py_iter data = Ok records ->
  dumps_each records = Ok lines ->
  calls (snd (upload_to_s3 w data st))
  = (calls st ++ [PutObject bucket_name file_key (String.concat newline lines)])%list.
Proof.
  intros Hiter Hlines.
  unfold upload_to_s3, try_except, bind, invoke, print, enter, lift.
  cbn [calls stdout entered]. rewrite Hiter, Hlines. cbn [calls snd].
  destruct (s3_put_object w (calls st) _ _ _) as [[]|e]; cbn [calls snd]; [reflexivity|].
  now destruct (is_ClientError e).
Qed.

(** X7.  What [upload_to_s3] does with data that is not a non-empty list
    of records: an empty list is put as an empty body; of a dict, the keys
    are put, one quoted key per line, and the values are dropped; of a
    str, the characters are put, one quoted character per line. *)
Theorem upload_to_s3_other_iterables (st : state) :
  calls (snd (upload_to_s3 w (PyList []) st))
  = (calls st ++ [PutObject bucket_name file_key EmptyString])%list /\
  (forall d,
     calls (snd (upload_to_s3 w (PyDict d) st))
     = (calls st ++
        [PutObject bucket_name file_key
           (String.concat newline
              (map (fun kv => encode_basestring_ascii (fst kv)) d))])%list) /\
  (forall s,
     calls (snd (upload_to_s3 w (PyStr s) st))
     = (calls st ++
        [PutObject bucket_name file_key
           (String.concat newline
              (map (fun c => encode_basestring_ascii [c]) s))])%list).
Proof.
  split; [|split].
  - now apply (upload_to_s3_put (PyList []) [] []).
  - intros d.
    apply (upload_to_s3_put (PyDict d) (map (fun kv => PyStr (fst kv)) d)); [reflexivity|].
    rewrite <- (map_map fst PyStr), dumps_each_strs, map_map. reflexivity.
  - intros s.
    apply (upload_to_s3_put (PyStr s) (map (fun c => PyStr [c]) s)); [reflexivity|].
    rewrite <- (map_map (fun c => [c]) PyStr), dumps_each_strs, map_map. reflexivity.
Qed.


(** X9.  A [ClientError] from [put_object] is reported and swallowed: the
    step returns, the one line it prints is the error line with the text
    of the error, and the line that reports an upload is not printed. *)
Theorem upload_to_s3_on_ClientError (st : state) (data : pyval)
        (records : list pyval) (lines : list string) (code text : string) :
  py_iter data = Ok records ->
  dumps_each records = Ok lines ->
  s3_put_object w (calls st) bucket_name file_key (String.concat newline lines)
  = Raise (ClientError code text) ->
  upload_to_s3 w data st
  = (Ok tt,
     {| calls := calls st ++ [PutObject bucket_name file_key (String.concat newline lines)];
        stdout := stdout st ++ ["Error uploading data to S3: " ++ text];
        entered := entered st ++ [Fupload_to_s3] |}).
Proof.
  intros Hiter Hlines Hput.
  unfold upload_to_s3, try_except, bind, invoke, print, enter, lift.
  cbn [calls stdout entered]. rewrite Hiter, Hlines. cbn [calls stdout entered].
  rewrite Hput. reflexivity.
Qed.


End Upload_properties.

Section Catalog_properties.
Context {FM : FloatModel}.
Variable w : World.

(** X11.  Nothing is caught in the database and table steps: whatever the
    listing call or the create call raises, a [ClientError] included, leaves
    the step as it is, after the calls made so far and with no line
    printed.  In particular a create call that fails because the entity was
    created in the meantime ends the step with that error. *)
Theorem catalog_step_errors_propagate (st : state) (e : exn) :
  (glue_get_databases w (calls st) = Raise e ->
   create_glue_database w st
   = (Raise e, {| calls := calls st ++ [GetDatabases]; stdout := stdout st;
                  entered := entered st ++ [Fcreate_glue_database] |})) /\
  (forall l input,
     input = {| di_Name := database_name; di_Description := "NBA Data Lake" |} ->
     glue_get_databases w (calls st) = Ok l ->
     any_named database_name l = false ->
     glue_create_database w (calls st ++ [GetDatabases]) input = Raise e ->
     create_glue_database w st
     = (Raise e, {| calls := calls st ++ [GetDatabases; CreateDatabase input];
                    stdout := stdout st;
                    entered := entered st ++ [Fcreate_glue_database] |})) /\
  (glue_get_tables w (calls st) database_name = Raise e ->
   create_glue_table w st
   = (Raise e, {| calls := calls st ++ [GetTables database_name]; stdout := stdout st;
                  entered := entered st ++ [Fcreate_glue_table] |})) /\
  (forall l,
     glue_get_tables w (calls st) database_name = Ok l ->
     any_named table_name l = false ->
     glue_create_table w (calls st ++ [GetTables database_name]) database_name
       nba_players_table = Raise e ->
     create_glue_table w st
     = (Raise e, {| calls := calls st ++ [GetTables database_name;
                                          CreateTable database_name nba_players_table];
                    stdout := stdout st;
                    entered := entered st ++ [Fcreate_glue_table] |})).
Proof.
  repeat apply conj.
  - intros H. unfold create_glue_database, bind, invoke, print, enter.
    cbn [calls stdout entered]. now rewrite H.
  - intros l input -> Hl Hany H.
    unfold create_glue_database, bind, invoke, print, enter.
    cbn [calls stdout entered]. rewrite Hl, Hany. cbn [negb calls stdout entered].
    rewrite H. now rewrite <- app_assoc.
  - intros H. unfold create_glue_table, bind, invoke, print, enter.
    cbn [calls stdout entered]. now rewrite H.
  - intros l Hl Hany H.
    unfold create_glue_table, bind, invoke, print, enter.
    cbn [calls stdout entered]. rewrite Hl, Hany. cbn [negb calls stdout entered].
    rewrite H. now rewrite <- app_assoc.
Qed.

(** X12.  Running the database step twice creates the database once: when
    the first listing lacks the name, the creation succeeds and the second
    listing has the name, the two runs make three calls, list, create and
    list, and both return. *)
Theorem create_glue_database_twice (st : state) (l1 l2 : list Entry) :
  let input := {| di_Name := database_name; di_Description := "NBA Data Lake" |} in
  glue_get_databases w (calls st) = Ok l1 ->
  any_named database_name l1 = false ->
  glue_create_database w (calls st ++ [GetDatabases]) input = Ok tt ->
  glue_get_databases w (calls st ++ [GetDatabases; CreateDatabase input]) = Ok l2 ->
  any_named database_name l2 = true ->
  (create_glue_database w ;; create_glue_database w) st
  = (Ok tt,
     {| calls := calls st ++ [GetDatabases; CreateDatabase input; GetDatabases];
        stdout := stdout st
                  ++ ["Glue database '" ++ database_name ++ "' created successfully.";
                      "Glue database '" ++ database_name
                      ++ "' already exists. Skipping creation."];
        entered := entered st ++ [Fcreate_glue_database; Fcreate_glue_database] |}).
Proof.
  intros input H1 Hno Hcreate H2 Hyes.
  unfold create_glue_database, bind, invoke, print, enter.
  cbn [calls stdout entered]. rewrite H1, Hno. cbn [negb calls stdout entered].
  fold input. rewrite Hcreate. cbn [calls stdout entered].
  rewrite <- !app_assoc. cbn [app]. rewrite H2, Hyes. cbn [negb calls stdout entered].
  now rewrite <- !app_assoc.
Qed.

(** X13.  Running the table step twice creates the table once, in the same
    way: list, create, list. *)
Theorem create_glue_table_twice (st : state) (l1 l2 : list Entry) :
  glue_get_tables w (calls st) database_name = Ok l1 ->
  any_named table_name l1 = false ->
  glue_create_table w (calls st ++ [GetTables database_name]) database_name
    nba_players_table = Ok tt ->
  glue_get_tables w
    (calls st ++ [GetTables database_name; CreateTable database_name nba_players_table])
    database_name = Ok l2 ->
  any_named table_name l2 = true ->
  (create_glue_table w ;; create_glue_table w) st
  = (Ok tt,
     {| calls := calls st ++ [GetTables database_name;
                              CreateTable database_name nba_players_table;
                              GetTables database_name];
        stdout := stdout st
                  ++ ["Glue table '" ++ table_name ++ "' created successfully.";
                      "Glue table '" ++ table_name ++ "' already exists. Skipping creation."];
        entered := entered st ++ [Fcreate_glue_table; Fcreate_glue_table] |}).
Proof.
  intros H1 Hno Hcreate H2 Hyes.
  unfold create_glue_table, bind, invoke, print, enter.
  cbn [calls stdout entered]. rewrite H1, Hno. cbn [negb calls stdout entered].
  rewrite Hcreate. cbn [calls stdout entered].
  rewrite <- !app_assoc. cbn [app]. rewrite H2, Hyes. cbn [negb calls stdout entered].
  now rewrite <- !app_assoc.
Qed.

Lemma configure_athena_calls (st : state) :
  calls (snd (configure_athena w st))
  = (calls st ++ [StartQueryExecution "SELECT 1" database_name s3_output_location])%list.
Proof.
  unfold configure_athena, try_except, bind, invoke, print, enter.
  cbn [calls stdout entered].
  destruct (athena_start_query_execution w (calls st) _ _ _) as [[]|e];
    [|destruct (is_ClientError e)]; reflexivity.
Qed.

(** X14.  The query step makes one call whatever happens: the probe query
    [SELECT 1], in the database of the script, with its results sent to the
    [athena-results/] folder of the bucket, a folder that is not inside the
    location of the table.  A [ClientError] from the call is reported on
    one line and swallowed. *)
Theorem configure_athena_probe (st : state) :
  calls (snd (configure_athena w st))
  = (calls st ++ [StartQueryExecution "SELECT 1" "glue_nba_data_lake"
                    "s3://sports-analytics-data-lake-osagie123/athena-results/"])%list /\
  String.prefix (Location (ti_StorageDescriptor nba_players_table)) s3_output_location
  = false /\
  (forall code text,
     athena_start_query_execution w (calls st) "SELECT 1" database_name s3_output_location
     = Raise (ClientError code text) ->
     fst (configure_athena w st) = Ok tt /\
     stdout (snd (configure_athena w st))
     = (stdout st ++ [("Error configuring Athena: " ++ text)%string])%list).
Proof.
  split; [exact (configure_athena_calls st)|]. split; [reflexivity|].
  intros code text H.
  unfold configure_athena, try_except, bind, invoke, print, enter.
  cbn [calls stdout entered]. rewrite H. split; reflexivity.
Qed.

End Catalog_properties.

(** * Further properties of the whole run *)

Section Call_order.
Context {FM : FloatModel}.
Variable w : World.

Lemma in_order_nil (lo hi : nat) : in_order lo hi [].
Proof. split; constructor. Qed.

Lemma in_order_one (lo hi : nat) (c : call) :
  lo <= call_rank c <= hi -> in_order lo hi [c].
Proof.
  intros H. split; cbn [map].
  - constructor; constructor.
  - constructor; [exact H | constructor].
Qed.

Lemma in_order_app (a b c d : nat) (xs ys : list call) :
  in_order a b xs -> in_order c d ys -> b < c -> a <= c -> b <= d ->
  in_order a d (xs ++ ys).
Proof.
  intros [Sx Bx] [Sy By] Hbc Hac Hbd. split.
  - rewrite map_app. clear Hac Hbd.
    induction xs as [|x xs IH]; cbn [map app]; [exact Sy|].
    inversion Sx as [|? ? Sx' Hx]; subst. inversion Bx as [|? ? Bh Bx']; subst.
    constructor; [now apply IH|].
    apply Forall_app. split; [exact Hx|].
    rewrite Forall_map. eapply Forall_impl; [|exact By].
    intros y Hy. cbn beta in *. lia.
  - apply Forall_app. split; (eapply Forall_impl; [|eassumption]);
      intros y Hy; cbn beta in *; lia.
Qed.

Lemma in_order_wider (a b a' b' : nat) (xs : list call) :
  in_order a b xs -> a' <= a -> b <= b' -> in_order a' b' xs.
Proof.
  intros [S B] Ha Hb. split; [exact S|].
  eapply Forall_impl; [|exact B]. intros y Hy. cbn beta in *. lia.
Qed.

Lemma in_order_length (xs : list call) (lo hi : nat) :
  in_order lo hi xs -> lo <= S hi -> List.length xs + lo <= S hi.
Proof.
  revert lo. induction xs as [|x xs IH]; intros lo [Hs Hb] Hlo; cbn [List.length].
  - lia.
  - inversion Hs as [|? ? Hs' Hx]; subst. inversion Hb as [|? ? Bh Hb']; subst.
    assert (Hxs : in_order (S (call_rank x)) hi xs).
    { split; [exact Hs'|].
      rewrite Forall_map in Hx. rewrite Forall_forall in *.
      intros y Hy. specialize (Hx y Hy). specialize (Hb' y Hy). cbn beta in *. lia. }
    specialize (IH _ Hxs). lia.
Qed.

Lemma issues_bind {A B} (lo hi lo' hi' : nat) (m : M A) (k : A -> M B) :
  issues lo hi m -> (forall a, issues lo' hi' (k a)) ->
  hi < lo' -> lo <= lo' -> hi <= hi' ->
  issues lo hi' (bind m k).
Proof.
  intros Hm Hk H1 H2 H3 st. unfold bind.
  destruct (Hm st) as (cs & Hc & Hord).
  destruct (m st) as [[a|e] st1]; cbn [snd] in *.
  - destruct (Hk a st1) as (cs' & Hc' & Hord').
    exists (cs ++ cs')%list. rewrite Hc', Hc, app_assoc.
    split; [reflexivity | now apply (in_order_app lo hi lo' hi')].
  - exists cs. split; [exact Hc | now apply (in_order_wider lo hi)].
Qed.

Lemma issues_after_print {A} (lo hi : nat) (line : string) (m : M A) :
  issues lo hi m -> issues lo hi (print line ;; m).
Proof.
  intros H st. unfold bind, print.
  exact (H {| calls := calls st; stdout := stdout st ++ [line]; entered := entered st |}).
Qed.

Lemma issues_before_print {A} (lo hi : nat) (line : string) (m : M A) :
  issues lo hi m -> issues lo hi (m ;; print line).
Proof.
  intros H st. unfold bind, print.
  destruct (H st) as (cs & Hc & Hord). exists cs. split; [|exact Hord].
  destruct (m st) as [[a|e] st1]; exact Hc.
Qed.

Lemma issues_create_s3_bucket : issues 1 1 (create_s3_bucket w).
Proof.
  intros st. eexists. split; [apply create_s3_bucket_calls|].
  apply in_order_one. cbn. lia.
Qed.

Lemma issues_fetch_nba_data : issues 2 2 (fetch_nba_data w).
Proof.
  intros st. eexists. split; [apply fetch_nba_data_calls|].
  apply in_order_one. cbn. lia.
Qed.

Lemma issues_upload (data : pyval) :
  issues 3 3 (if truthy data then upload_to_s3 w data else ret tt).
Proof.
  intros st. destruct (truthy data).
  - destruct (upload_to_s3_calls w data st) as [E|[body E]].
    + exists []. split; [now rewrite E, app_nil_r | apply in_order_nil].
    + eexists. split; [exact E|]. apply in_order_one. cbn. lia.
  - exists []. split; [symmetry; apply app_nil_r | apply in_order_nil].
Qed.

Lemma issues_create_glue_database : issues 4 5 (create_glue_database w).
Proof.
  intros st. unfold create_glue_database, bind, invoke, print, enter.
  cbn [calls stdout entered].
  destruct (glue_get_databases w (calls st)) as [l|e]; cbn [calls snd].
  - destruct (any_named database_name l); cbn [negb calls snd].
    + eexists. split; [reflexivity|]. apply in_order_one. cbn. lia.
    + exists [GetDatabases;
              CreateDatabase {| di_Name := database_name;
                                di_Description := "NBA Data Lake" |}].
      split.
      * destruct (glue_create_database w _ _) as [[]|e]; cbn [calls snd];
          now rewrite <- app_assoc.
      * apply (in_order_app 4 4 5 5 [GetDatabases]); try lia;
          apply in_order_one; cbn; lia.
  - eexists. split; [reflexivity|]. apply in_order_one. cbn. lia.
Qed.

Lemma issues_create_glue_table : issues 6 7 (create_glue_table w).
Proof.
  intros st. unfold create_glue_table, bind, invoke, print, enter.
  cbn [calls stdout entered].
  destruct (glue_get_tables w (calls st) database_name) as [l|e]; cbn [calls snd].
  - destruct (any_named table_name l); cbn [negb calls snd].
    + eexists. split; [reflexivity|]. apply in_order_one. cbn. lia.
    + exists [GetTables database_name; CreateTable database_name nba_players_table].
      split.
      * destruct (glue_create_table w _ _ _) as [[]|e]; cbn [calls snd];
          now rewrite <- app_assoc.
      * apply (in_order_app 6 6 7 7 [GetTables database_name]); try lia;
          apply in_order_one; cbn; lia.
  - eexists. split; [reflexivity|]. apply in_order_one. cbn. lia.
Qed.

Lemma issues_configure_athena : issues 8 8 (configure_athena w).
Proof.
  intros st. eexists. split; [apply configure_athena_calls|].
  apply in_order_one. cbn. lia.
Qed.

Lemma issues_main : issues 1 8 (main w).
Proof.
  unfold main. apply issues_after_print.
  apply (issues_bind 1 1 2 8); [apply issues_create_s3_bucket | intros _ | lia | lia | lia].
  apply (issues_bind 2 2 3 8); [apply issues_fetch_nba_data | intros data | lia | lia | lia].
  apply (issues_bind 3 3 4 8); [apply issues_upload | intros _ | lia | lia | lia].
  apply (issues_bind 4 5 6 8);
    [apply issues_create_glue_database | intros _ | lia | lia | lia].
  apply (issues_bind 6 7 8 8); [apply issues_create_glue_table | intros _ | lia | lia | lia].
  apply issues_before_print. apply issues_configure_athena.
Qed.

(** X15.  In every run the calls are made in one fixed order, bucket
    creation, GET, put, database listing, database creation, table
    listing, table creation, probe query, and each of the eight operations
    is called at most once: nothing is retried and nothing is called out
    of turn, whatever the services answer. *)
Theorem main_calls_in_order :
  StronglySorted lt (map call_rank (calls (snd (run (main w))))) /\
  List.length (calls (snd (run (main w)))) <= 8.
Proof.
  destruct (issues_main init) as (cs & Hc & Hord).
  unfold run. rewrite Hc. cbn [calls init app].
  split; [exact (proj1 Hord)|].
  pose proof (in_order_length cs 1 8 Hord). lia.
Qed.

End Call_order.

Section Output_properties.
Context {FM : FloatModel}.
Variable w : World.

Ltac other_lines :=
  cbn [snd stdout];
  first
    [ exists []; split; [now rewrite app_nil_r | intros []]
    | eexists; split;
      [ first [reflexivity | rewrite <- app_assoc; reflexivity]
      | cbn; unfold banner_done, newline; cbn;
        let H := fresh in
        intros H; repeat (destruct H as [H|H]; [discriminate H|]); exact H ] ].

Lemma prints_on_bind {A B} (m : M A) (k : A -> M B) :
  prints_on m -> (forall a, prints_on (k a)) -> prints_on (bind m k).
Proof.
  intros Hm Hk st. unfold bind.
  destruct (Hm st) as (ls & Hs & Hno).
  destruct (m st) as [[a|e] st1]; cbn [snd] in *.
  - destruct (Hk a st1) as (ls' & Hs' & Hno').
    exists (ls ++ ls')%list. rewrite Hs', Hs, app_assoc. split; [reflexivity|].
    intros Hin. apply in_app_or in Hin as [Hin|Hin]; contradiction.
  - now exists ls.
Qed.

Lemma prints_on_create_s3_bucket : prints_on (create_s3_bucket w).
Proof.
  intros st. unfold create_s3_bucket, try_except, bind, invoke, print, enter.
  cbn [calls stdout entered].
  destruct (s3_create_bucket w (calls st) bucket_name) as [[]|e]; [other_lines|].
  destruct (is_ClientError e); [|other_lines].
  destruct (response_Error_Code e =? "BucketAlreadyOwnedByYou"); other_lines.
Qed.

Lemma prints_on_fetch_nba_data : prints_on (fetch_nba_data w).
Proof.
  intros st. unfold fetch_nba_data, try_except, bind, invoke, print, enter, lift, ret.
  cbn [calls stdout entered].
  destruct (http_get w (calls st) _ _) as [r|e].
  - destruct (raise_for_status r) as [[]|e].
    + destruct (json r) as [v|e]; [other_lines|].
      destruct (is_RequestException e); other_lines.
    + destruct (is_RequestException e); other_lines.
  - destruct (is_RequestException e); other_lines.
Qed.

Lemma prints_on_upload (data : pyval) :
  prints_on (if truthy data then upload_to_s3 w data else ret tt).
Proof.
  intros st. destruct (truthy data); [|unfold ret; other_lines].
  unfold upload_to_s3, try_except, bind, invoke, print, enter, lift.
  cbn [calls stdout entered].
  destruct (py_iter data) as [records|e].
  - destruct (dumps_each records) as [lines|e].
    + destruct (s3_put_object w (calls st) _ _ _) as [[]|e]; [other_lines|].
      destruct (is_ClientError e); other_lines.
    + destruct (is_ClientError e); other_lines.
  - destruct (is_ClientError e); other_lines.
Qed.

Lemma prints_on_create_glue_database : prints_on (create_glue_database w).
Proof.
  intros st. unfold create_glue_database, bind, invoke, print, enter.
  cbn [calls stdout entered].
  destruct (glue_get_databases w (calls st)) as [l|e]; [|other_lines].
  destruct (any_named database_name l); cbn [negb]; [other_lines|].
  destruct (glue_create_database w _ _) as [[]|e]; other_lines.
Qed.

Lemma prints_on_create_glue_table : prints_on (create_glue_table w).
Proof.
  intros st. unfold create_glue_table, bind, invoke, print, enter.
  cbn [calls stdout entered].
  destruct (glue_get_tables w (calls st) database_name) as [l|e]; [|other_lines].
  destruct (any_named table_name l); cbn [negb]; [other_lines|].
  destruct (glue_create_table w _ _ _) as [[]|e]; other_lines.
Qed.

Lemma prints_on_configure_athena : prints_on (configure_athena w).
Proof.
  intros st. unfold configure_athena, try_except, bind, invoke, print, enter.
  cbn [calls stdout entered].
  destruct (athena_start_query_execution w (calls st) _ _ _) as [[]|e]; [other_lines|].
  destruct (is_ClientError e); other_lines.
Qed.

Lemma prints_on_bucket_to_table : prints_on (bucket_to_table w).
Proof.
  unfold bucket_to_table.
  apply prints_on_bind; [apply prints_on_create_s3_bucket | intros _].
  apply prints_on_bind; [apply prints_on_fetch_nba_data | intros data].
  apply prints_on_bind; [apply prints_on_upload | intros _].
  apply prints_on_bind; [apply prints_on_create_glue_database | intros _].
  apply prints_on_create_glue_table.
Qed.

Lemma up_to_table_after_banner :
  run (up_to_table w)
  = bucket_to_table w {| calls := []; stdout := [banner_start]; entered := [] |}.
Proof. reflexivity. Qed.


End Output_properties.

Section Completion_properties.
Context {FM : FloatModel}.
Variable w : World.

Section Tolerable.
Hypothesis Hw : tolerable_world w.

Lemma tolerable_bucket (st : state) : fst (create_s3_bucket w st) = Ok tt.
Proof.
  destruct Hw as (Hb & _).
  unfold create_s3_bucket, try_except, bind, invoke, print, enter.
  cbn [calls stdout entered].
  destruct (s3_create_bucket w (calls st) bucket_name) as [[]|e] eqn:E; [reflexivity|].
  rewrite (Hb _ _ E).
  now destruct (response_Error_Code e =? "BucketAlreadyOwnedByYou").
Qed.

Lemma tolerable_fetch (st : state) :
  fst (fetch_nba_data w st) = Ok PyNone \/
  exists l, fst (fetch_nba_data w st) = Ok (PyList l) /\ forallb is_json l = true.
Proof.
  destruct Hw as (_ & Hg & Hj & _).
  unfold fetch_nba_data, try_except, bind, invoke, print, enter, lift, ret.
  cbn [calls stdout entered].
  destruct (http_get w (calls st) _ _) as [r|e] eqn:E.
  - destruct (raise_for_status r) as [[]|e] eqn:Hs.
    + destruct (Hj _ _ _ E) as [(l & -> & Hl)|(e & -> & He)].
      * right. now exists l.
      * left. now rewrite He.
    + left. now rewrite (raise_for_status_raises r e Hs).
  - left. now rewrite (Hg _ _ _ E).
Qed.

Lemma tolerable_upload (st : state) (l : list pyval) :
  forallb is_json l = true -> fst (upload_to_s3 w (PyList l) st) = Ok tt.
Proof.
  intros Hl. destruct Hw as (_ & _ & _ & Hp & _).
  destruct (dumps_each_json l Hl) as [lines Hlines].
  unfold upload_to_s3, try_except, bind, invoke, print, enter, lift.
  cbn [py_iter calls stdout entered]. rewrite Hlines. cbn [calls stdout entered].
  destruct (s3_put_object w (calls st) _ _ _) as [[]|e] eqn:E; [reflexivity|].
  now rewrite (Hp _ _ _ E).
Qed.

Lemma tolerable_database (st : state) : fst (create_glue_database w st) = Ok tt.
Proof.
  destruct Hw as (_ & _ & _ & _ & Hl & Hc & _).
  unfold create_glue_database, bind, invoke, print, enter.
  cbn [calls stdout entered].
  destruct (Hl (calls st)) as [l ->].
  destruct (any_named database_name l); cbn [negb]; [reflexivity|].
  now rewrite Hc.
Qed.

Lemma tolerable_table (st : state) : fst (create_glue_table w st) = Ok tt.
Proof.
  destruct Hw as (_ & _ & _ & _ & _ & _ & Hl & Hc & _).
  unfold create_glue_table, bind, invoke, print, enter.
  cbn [calls stdout entered].
  destruct (Hl (calls st)) as [l ->].
  destruct (any_named table_name l); cbn [negb]; [reflexivity|].
  now rewrite Hc.
Qed.

Lemma tolerable_athena (st : state) : fst (configure_athena w st) = Ok tt.
Proof.
  destruct Hw as (_ & _ & _ & _ & _ & _ & _ & _ & Ha).
  unfold configure_athena, try_except, bind, invoke, print, enter.
  cbn [calls stdout entered].
  destruct (athena_start_query_execution w (calls st) _ _ _) as [[]|e] eqn:E;
    [reflexivity|].
  now rewrite (Ha _ _ E).
Qed.

Lemma tolerable_run :
  fst (run (main w)) = Ok tt /\
  (entered (snd (run (main w)))
   = [Fcreate_s3_bucket; Ffetch_nba_data;
      Fcreate_glue_database; Fcreate_glue_table; Fconfigure_athena] \/
   entered (snd (run (main w)))
   = [Fcreate_s3_bucket; Ffetch_nba_data; Fupload_to_s3;
      Fcreate_glue_database; Fcreate_glue_table; Fconfigure_athena]).
Proof.
  unfold run, main, bind. rewrite banner_printed.
  match goal with |- context [create_s3_bucket w ?s] =>
    pose proof (tolerable_bucket s) as R1;
    pose proof (create_s3_bucket_entered w s) as E1;
    destruct (create_s3_bucket w s) as [[[]|e] st1] end;
    cbn [fst snd entered app] in *; [|discriminate].
  pose proof (tolerable_fetch st1) as R2.
  pose proof (fetch_nba_data_entered w st1) as E2.
  destruct (fetch_nba_data w st1) as [[v|e] st2]; cbn [fst snd] in *;
    [|destruct R2 as [R2|(l & R2 & _)]; discriminate].
  rewrite E1 in E2. cbn [app] in E2.
  assert (Hup : exists st3,
             (if truthy v then upload_to_s3 w v else ret tt) st2 = (Ok tt, st3) /\
             (entered st3 = entered st2 \/
              entered st3 = (entered st2 ++ [Fupload_to_s3])%list)).
  { destruct R2 as [R2|(l & R2 & Hl)]; injection R2 as ->.
    - exists st2. split; [reflexivity | now left].
    - destruct (truthy (PyList l)); [|exists st2; split; [reflexivity | now left]].
      pose proof (tolerable_upload st2 l Hl) as R3.
      pose proof (upload_to_s3_entered w (PyList l) st2) as E3.
      destruct (upload_to_s3 w (PyList l) st2) as [[[]|e] st3]; cbn [fst snd] in *;
        [|discriminate].
      exists st3. split; [reflexivity | now right]. }
  destruct Hup as (st3 & -> & E3).
  pose proof (tolerable_database st3) as R4.
  pose proof (create_glue_database_entered w st3) as E4.
  destruct (create_glue_database w st3) as [[[]|e] st4]; cbn [fst snd] in *;
    [|discriminate].
  pose proof (tolerable_table st4) as R5.
  pose proof (create_glue_table_entered w st4) as E5.
  destruct (create_glue_table w st4) as [[[]|e] st5]; cbn [fst snd] in *;
    [|discriminate].
  pose proof (tolerable_athena st5) as R6.
  pose proof (configure_athena_entered w st5) as E6.
  destruct (configure_athena w st5) as [[[]|e] st6]; cbn [fst snd] in *;
    [|discriminate].
  unfold print. cbn [fst snd entered]. split; [reflexivity|].
  rewrite E6, E5, E4.
  destruct E3 as [->| ->]; rewrite E2; [left | right]; reflexivity.
Qed.

End Tolerable.


(** X18.  A table over no data.  When the fetch returned [None] or an
    empty list, the database step returns and the table is not listed, the
    run creates the table, located at the [raw-data/] folder, although it
    has put no object there. *)
Theorem table_created_without_data (st4 : state) (l : list Entry) :
  fst (run (up_to_fetch w)) = Ok PyNone \/ fst (run (up_to_fetch w)) = Ok (PyList []) ->
  create_glue_database w (snd (run (up_to_fetch w))) = (Ok tt, st4) ->
  glue_get_tables w (calls st4) database_name = Ok l ->
  any_named table_name l = false ->
  In (CreateTable database_name nba_players_table) (calls (snd (run (main w)))) /\
  existsb is_PutObject (calls (snd (run (main w)))) = false.
Proof.
  intros Hdata Hdb Hl Hany.
  assert (Hmain : run (main w) = catalog_and_query w (snd (run (up_to_fetch w)))).
  { rewrite main_after_fetch.
    destruct (run (up_to_fetch w)) as [[v|e] st2]; cbn [fst snd] in *.
    - destruct Hdata as [E|E]; injection E as ->; reflexivity.
    - destruct Hdata; discriminate. }
  rewrite Hmain. split.
  - unfold catalog_and_query, bind. rewrite Hdb.
    assert (Ht : In (CreateTable database_name nba_players_table)
                   (calls (snd (create_glue_table w st4)))).
    { unfold create_glue_table, bind, invoke, print, enter.
      cbn [calls stdout entered]. rewrite Hl, Hany. cbn [negb].
      destruct (glue_create_table w _ _ _) as [[]|e]; cbn [snd calls];
        apply in_or_app; right; now left. }
    destruct (create_glue_table w st4) as [[[]|e] st5]; cbn [snd] in *; [|exact Ht].
    pose proof (configure_athena_calls w st5) as Ha.
    destruct (configure_athena w st5) as [[[]|e] st6]; cbn [snd] in *;
      unfold print; cbn [snd calls]; rewrite Ha; apply in_or_app; now left.
  - rewrite catalog_and_query_puts_nothing. apply up_to_fetch_puts_nothing.
Qed.

(** X19.  A body that is true for [if nba_data:] and cannot be iterated, a
    number or [true], ends the script in the upload step with a
    [TypeError]: no object is put and no catalog or query call is made. *)
Theorem run_ends_on_scalar_body (v : pyval) (st2 : state) (e : exn) :
  run (up_to_fetch w) = (Ok v, st2) ->
  truthy v = true ->
  py_iter v = Raise e ->
  run (main w)
  = (Raise e, {| calls := calls st2; stdout := stdout st2;
                 entered := [Fcreate_s3_bucket; Ffetch_nba_data; Fupload_to_s3] |}) /\
  (exists t, e = TypeError t) /\
  Forall (fun c => call_rank c <= 2) (calls st2).
Proof.
  intros Hrun Ht Hiter.
  pose proof (up_to_fetch_returned w v) as Hent.
  rewrite main_after_fetch. rewrite Hrun in *. cbn [fst snd] in Hent.
  rewrite Ht. unfold bind, upload_to_s3, try_except, bind, invoke, print, enter, lift.
  cbn [calls stdout entered]. rewrite Hiter.
  destruct (py_iter_raises_TypeError v e Hiter) as [t ->].
  cbn [is_ClientError]. rewrite (Hent eq_refl). split; [reflexivity|].
  split; [now exists t|].
  assert (Hcalls : issues 1 2 (up_to_fetch w)).
  { unfold up_to_fetch. apply issues_after_print.
    apply (issues_bind 1 1 2 2);
      [apply issues_create_s3_bucket | intros _; apply issues_fetch_nba_data
      | lia | lia | lia]. }
  destruct (Hcalls init) as (cs & Hc & _ & Hb).
  unfold run in Hrun. rewrite Hrun in Hc. cbn [snd calls init app] in Hc. rewrite Hc.
  eapply Forall_impl; [|exact Hb]. intros c Hcr. cbn beta in Hcr. lia.
Qed.

End Completion_properties.

Section Body_characters.
Context {FM : FloatModel}.
Variable w : World.

Lemma all_chars_app (p : ascii -> bool) (a b : string) :
  all_chars p (a ++ b) = all_chars p a && all_chars p b.
Proof.
  induction a as [|c a IH]; cbn [append all_chars]; [reflexivity|].
  now rewrite IH, andb_assoc.
Qed.

Lemma all_chars_concat (p : ascii -> bool) (sep : string) (ss : list string) :
  all_chars p sep = true ->
  Forall (fun s => all_chars p s = true) ss ->
  all_chars p (String.concat sep ss) = true.
Proof.
  intros Hsep Hss.
  induction Hss as [|s r Hs Hr IH]; [reflexivity|].
  destruct r as [|s' r]; [exact Hs|].
  change (all_chars p (s ++ sep ++ String.concat sep (s' :: r)) = true).
  now rewrite !all_chars_app, Hs, Hsep, IH.
Qed.

Lemma all_chars_weaken (p q : ascii -> bool) (s : string) :
  (forall c, p c = true -> q c = true) -> all_chars p s = true -> all_chars q s = true.
Proof.
  intros Hpq. induction s as [|c s IH]; cbn [all_chars]; [reflexivity|].
  intros H. apply andb_true_iff in H as [Hc Hs].
  now rewrite (Hpq c Hc), (IH Hs).
Qed.

Lemma hex_digit_plain (d : N) : plain_char (hex_digit d) = true.
Proof.
  unfold hex_digit. generalize (N.to_nat d) as k. intros k.
  do 16 (destruct k as [|k]; [reflexivity|]). reflexivity.
Qed.

Lemma u_escape_plain (n : N) : all_chars plain_char (u_escape n) = true.
Proof.
  unfold u_escape, hex04. cbn [all_chars]. now rewrite !hex_digit_plain.
Qed.

Lemma printable_plain (n : N) :
  (32 <= n)%N -> (n <= 126)%N -> plain_char (ascii_of_N n) = true.
Proof.
  intros Hlo Hhi. unfold plain_char.
  rewrite N_ascii_embedding by lia.
  apply andb_true_iff. split; now apply N.leb_le.
Qed.

Lemma escape_char_plain (n : N) : all_chars plain_char (escape_char n) = true.
Proof.
  unfold escape_char.
  destruct (n =? 92)%N; [reflexivity|].
  destruct (n =? 34)%N; [reflexivity|].
  destruct ((32 <=? n) && (n <=? 126))%N eqn:Hp.
  - apply andb_true_iff in Hp as [Hlo Hhi].
    apply N.leb_le in Hlo, Hhi. cbn [all_chars].
    now rewrite printable_plain.
  - destruct (n =? 8)%N; [reflexivity|].
    destruct (n =? 12)%N; [reflexivity|].
    destruct (n =? 10)%N; [reflexivity|].
    destruct (n =? 13)%N; [reflexivity|].
    destruct (n =? 9)%N; [reflexivity|].
    destruct (n <? 65536)%N; [apply u_escape_plain|].
    cbv zeta. now rewrite all_chars_app, !u_escape_plain.
Qed.

Lemma encode_basestring_ascii_plain (s : pystr) :
  all_chars plain_char (encode_basestring_ascii s) = true.
Proof.
  unfold encode_basestring_ascii.
  change (plain_char DQUOTE
          && all_chars plain_char
               (String.concat EmptyString (map escape_char s) ++ String DQUOTE EmptyString)
          = true).
  rewrite all_chars_app, all_chars_concat; [reflexivity | reflexivity |].
  apply Forall_forall. intros x Hx.
  apply in_map_iff in Hx as [n [<- _]]. apply escape_char_plain.
Qed.

Lemma string_of_uint_plain (d : Decimal.uint) :
  all_chars plain_char (NilEmpty.string_of_uint d) = true.
Proof.
  induction d; cbn [NilEmpty.string_of_uint all_chars]; auto.
Qed.

Lemma int_repr_plain (z : Z) : all_chars plain_char (int_repr z) = true.
Proof.
  unfold int_repr, NilZero.string_of_int, NilZero.string_of_uint.
  destruct (Z.to_int z) as [d|d]; destruct d;
    cbn [NilEmpty.string_of_uint all_chars];
    try reflexivity; rewrite ?string_of_uint_plain; reflexivity.
Qed.

Lemma json_dumps_plain :
  float_plain ->
  forall v s, json_dumps v = Ok s -> all_chars plain_char s = true.
Proof.
  intros Hfloat.
  induction v as [ | b | z | f | p | l IHl | d IHd | c ] using pyval_nested_ind;
    intros s H.
  - injection H as <-. reflexivity.
  - destruct b; injection H as <-; reflexivity.
  - injection H as <-. apply int_repr_plain.
  - injection H as <-. apply Hfloat.
  - injection H as <-. apply encode_basestring_ascii_plain.
  - rewrite json_dumps_list in H.
    destruct (dumps_each l) as [ss|] eqn:Hss; [|discriminate].
    injection H as <-.
    change (plain_char "[" && all_chars plain_char (String.concat ", " ss ++ "]") = true).
    rewrite all_chars_app, all_chars_concat; [reflexivity | reflexivity |].
    apply dumps_each_Forall2 in Hss. clear - IHl Hss.
    induction Hss as [|x s r ss Hx _ IH]; constructor.
    + inversion IHl as [|? ? Px _]; subst. now apply Px.
    + apply IH. now inversion IHl.
  - rewrite json_dumps_dict in H.
    destruct (dumps_members d) as [ss|] eqn:Hss; [|discriminate].
    injection H as <-.
    change (plain_char "{" && all_chars plain_char (String.concat ", " ss ++ "}") = true).
    rewrite all_chars_app, all_chars_concat; [reflexivity | reflexivity |].
    clear - IHd Hss. revert ss Hss.
    induction d as [|[k x] r IH]; cbn [dumps_members]; intros ss Hss.
    + injection Hss as <-. constructor.
    + destruct (json_dumps x) as [s|] eqn:Hx; [|discriminate].
      destruct (dumps_members r) as [ss'|]; [|discriminate].
      injection Hss as <-.
      inversion IHd as [|? ? Px Pr]; subst. constructor.
      * change (all_chars plain_char (encode_basestring_ascii k ++ (": " ++ s)) = true).
        rewrite !all_chars_app, encode_basestring_ascii_plain, (Px s Hx).
        reflexivity.
      * now apply IH.
  - discriminate.
Qed.

Lemma upload_to_s3_cases (data : pyval) (st : state) :
  calls (snd (upload_to_s3 w data st)) = calls st \/
  exists records lines,
    py_iter data = Ok records /\ dumps_each records = Ok lines /\
    calls (snd (upload_to_s3 w data st))
    = (calls st ++ [PutObject bucket_name file_key (String.concat newline lines)])%list.
Proof.
  destruct (py_iter data) as [records|e] eqn:Hiter.
  - destruct (dumps_each records) as [lines|e] eqn:Hlines.
    + right. exists records, lines.
      split; [reflexivity|]. split; [exact Hlines|].
      now apply (upload_to_s3_put w data records lines).
    + left. unfold upload_to_s3, try_except, bind, invoke, print, enter, lift.
      cbn [calls stdout entered]. rewrite Hiter, Hlines.
      now destruct (is_ClientError e).
  - left. unfold upload_to_s3, try_except, bind, invoke, print, enter, lift.
    cbn [calls stdout entered]. rewrite Hiter.
    now destruct (is_ClientError e).
Qed.

(** X20.  Whatever the data, every body [upload_to_s3] puts is plain
    ASCII: each of its characters is a line feed or a printable ASCII
    character, code points outside that range being written as escapes.
    The floats are assumed to be written in printable ASCII. *)
Theorem upload_to_s3_body_is_ascii (data : pyval) (st : state) (b k body : string) :
  float_plain ->
  In (PutObject b k body) (calls (snd (upload_to_s3 w data st))) ->
  ~ In (PutObject b k body) (calls st) ->
  all_chars body_char body = true.
Proof.
  intros Hfloat Hin Hnew.
  destruct (upload_to_s3_cases data st) as [E|(records & lines & _ & Hlines & E)];
    rewrite E in Hin; [contradiction|].
  apply in_app_or in Hin as [Hin|[Hin|[]]]; [contradiction|].
  injection Hin as _ _ <-.
  apply all_chars_concat; [reflexivity|].
  apply dumps_each_Forall2 in Hlines. clear - Hfloat Hlines.
  induction Hlines as [|x s r ss Hx _ IH]; constructor; [|exact IH].
  apply (all_chars_weaken plain_char).
  - intros c Hc. unfold body_char. rewrite Hc. apply orb_true_r.
  - exact (json_dumps_plain Hfloat x s Hx).
Qed.

End Body_characters.

(** ** The further properties on the scenarios *)

Section More_runs.
#[local] Existing Instance sample_floats.

Lemma sample_float_plain : @float_plain sample_floats.
Proof. intros []; reflexivity. Qed.

Lemma world_fine_tolerable : tolerable_world world_fine.
Proof.
  unfold tolerable_world, world_fine, account; cbn.
  repeat apply conj.
  - intros h e. destruct (bucket_created bucket_name h); [|discriminate].
    intros H. injection H as <-. reflexivity.
  - discriminate.
  - intros h hd r H. injection H as <-. left. now exists [player_A].
  - discriminate.
  - intros h. eexists; reflexivity.
  - reflexivity.
  - intros h. eexists; reflexivity.
  - reflexivity.
  - discriminate.
Qed.

Lemma fetch_nba_data_success_witness :
  fst (fetch_nba_data world_status_300 init) = Ok (PyList [player_A]).
Proof.
  refine (proj1 (fetch_nba_data_success world_status_300 init _ _ eq_refl _ eq_refl)).
  cbn. lia.
Defined.

Lemma fetch_nba_data_raises_only_foreign_witness :
  is_RequestException
    (OtherException "JSONDecodeError" "Expecting value: line 1 column 1 (char 0)") = false.
Proof.
  exact (proj1 (fetch_nba_data_raises_only_foreign world_body_not_json_unwrapped init
                  _ eq_refl)).
Defined.

Lemma fetch_nba_data_undecodable_body_witness :
  stdout (snd (fetch_nba_data world_body_not_json init))
  = ["Fetched NBA data successfully.";
     "Error fetching NBA data: Expecting value: line 1 column 1 (char 0)"].
Proof.
  refine (proj2 (fetch_nba_data_undecodable_body world_body_not_json init
                   _ "JSONDecodeError" "Expecting value: line 1 column 1 (char 0)"
                   eq_refl _ eq_refl)).
  cbn. lia.
Defined.

Lemma create_s3_bucket_on_ClientError_witness :
  stdout (snd (create_s3_bucket world_bucket_taken init))
  = ["Error creating S3 bucket: An error occurred (BucketAlreadyExists): The requested bucket name is not available"].
Proof.
  destruct (create_s3_bucket_on_ClientError world_bucket_taken init
              "BucketAlreadyExists"
              "An error occurred (BucketAlreadyExists): The requested bucket name is not available"
              eq_refl) as (_ & _ & _ & H).
  apply H. discriminate.
Defined.


Lemma upload_to_s3_on_ClientError_witness :
  fst (upload_to_s3 world_put_denied (PyList [player_A]) init) = Ok tt.
Proof.
  rewrite (upload_to_s3_on_ClientError world_put_denied init (PyList [player_A])
             [player_A] [player_A_json] "AccessDenied"
             "An error occurred (AccessDenied): Access Denied"
             eq_refl eq_refl eq_refl).
  reflexivity.
Defined.


Lemma create_glue_database_twice_witness :
  fst ((create_glue_database world_fine ;; create_glue_database world_fine) init) = Ok tt.
Proof.
  rewrite (create_glue_database_twice world_fine init []
             [ {| entry_Name := database_name |} ] eq_refl eq_refl eq_refl eq_refl eq_refl).
  reflexivity.
Defined.

Lemma create_glue_table_twice_witness :
  fst ((create_glue_table world_fine ;; create_glue_table world_fine) init) = Ok tt.
Proof.
  rewrite (create_glue_table_twice world_fine init []
             [ {| entry_Name := table_name |} ] eq_refl eq_refl eq_refl eq_refl eq_refl).
  reflexivity.
Defined.


Lemma table_created_without_data_witness :
  In (CreateTable database_name nba_players_table)
    (calls (snd (run (main world_api_down)))) /\
  existsb is_PutObject (calls (snd (run (main world_api_down)))) = false.
Proof.
  assert (Hdb : create_glue_database world_api_down (snd (run (up_to_fetch world_api_down)))
                = (Ok tt,
                   snd (create_glue_database world_api_down
                          (snd (run (up_to_fetch world_api_down))))))
    by (vm_compute; reflexivity).
  refine (table_created_without_data world_api_down _ [] (or_introl eq_refl) Hdb _ eq_refl).
  vm_compute. reflexivity.
Defined.

Lemma run_ends_on_scalar_body_witness :
  fst (run (main world_body_true)) = Raise (TypeError "'bool' object is not iterable").
Proof.
  assert (Hrun : run (up_to_fetch world_body_true)
                 = (Ok (PyBool true), snd (run (up_to_fetch world_body_true))))
    by (vm_compute; reflexivity).
  destruct (run_ends_on_scalar_body world_body_true (PyBool true) _
              (TypeError "'bool' object is not iterable") Hrun eq_refl eq_refl) as [H _].
  now rewrite H.
Defined.

Lemma upload_to_s3_body_is_ascii_witness :
  all_chars body_char
    (String.concat newline [player_A_json; "[0.5, " ++ quoted (esc "n") ++ "]"]) = true.
Proof.
  refine (upload_to_s3_body_is_ascii world_fine
            (PyList [player_A; PyList [@PyFloat sample_floats F_half; PyStr [10%N]]])
            init bucket_name file_key _ sample_float_plain _ _).
  - vm_compute. now left.
  - intros [].
Defined.

End More_runs.
